(** * binance_datatool: the BinanceFetcher of [fetcher/binance.py]

    A shallow embedding of the fetcher module: the Python values that the
    venue payloads are made of, the three symbol-info parsers, the candle
    normalisation variants over a small model of pandas and polars frames, the
    funding-rate extraction, and the fetcher facade as a program over its
    external collaborators (market transport, retry policy, interval
    conversion). *)

From Stdlib Require Import ZArith NArith List String Ascii Bool Lia.
From Stdlib Require Import Sorting.Sorted Sorting.Permutation.
Import ListNotations.

#[local] Open Scope string_scope.
#[local] Open Scope Z_scope.
#[local] Set Warnings "-register-all".

(** ** Exceptions and fallible computations *)

Inductive exn : Type :=
| KeyError
| TypeError
| ValueError
| RuntimeError
| InvalidOperation        (* decimal.InvalidOperation *)
| OverflowError
| OutOfBoundsDatetime
| OtherError (name : string).  (* of a library or of a collaborator *)

Inductive result (A : Type) : Type :=
| Ok (a : A)
| Err (e : exn).

Arguments Ok {A} a.
Arguments Err {A} e.

Definition bind {A B : Type} (r : result A) (k : A -> result B) : result B :=
  match r with
  | Ok a => k a
  | Err e => Err e
  end.

Notation "x <- e ;; k" := (bind e (fun x => k))
  (at level 61, e at next level, right associativity).

(** [mapM f l] runs [f] over [l] from left to right and stops at the first
    exception, as a Python loop or comprehension does. *)
Fixpoint mapM {A B : Type} (f : A -> result B) (l : list A) : result (list B) :=
  match l with
  | [] => Ok []
  | x :: l' => y <- f x ;; ys <- mapM f l' ;; Ok (y :: ys)
  end.

(** ** Python values *)

(** A Python [float] is represented by the decimal number its literal
    denotes, [(-1)^neg * coeff * 10^exp]; the rounding to binary64 is not
    represented. *)
Inductive float : Type :=
| FNum (neg : bool) (coeff : N) (exp : Z)
| FInf (neg : bool)
| FNaN.

(** [decimal.Decimal]: sign, coefficient and exponent, or a special value. *)
Inductive Decimal : Type :=
| DFinite (neg : bool) (coeff : N) (exp : Z)
| DInf (neg : bool)
| DNaN (neg signaling : bool) (diag : N).

(** The values of a decoded JSON payload ([None], [bool], [int], [float],
    [str], [list], [dict] with string keys), and the values that the fetcher
    puts in its outputs ([Decimal], UTC timestamps counted in milliseconds
    since the epoch, and pandas' [NaT] for a missing timestamp). *)
Inductive value : Type :=
| PNone
| PBool (b : bool)
| PInt (z : Z)
| PFloat (f : float)
| PStr (s : string)
| PDecimal (d : Decimal)
| PTimestamp (ms : Z)
| PList (l : list value)
| PDict (items : list (string * value))
| PNaT.

Fixpoint assoc {A : Type} (k : string) (items : list (string * A)) : option A :=
  match items with
  | [] => None
  | (k', v) :: rest => if String.eqb k k' then Some v else assoc k rest
  end.

(** [v[k]] for a string key [k]. *)
Definition getitem (v : value) (k : string) : result value :=
  match v with
  | PDict items =>
      match assoc k items with
      | Some x => Ok x
      | None => Err KeyError
      end
  | _ => Err TypeError
  end.

(** [k in d] for a string key and a dict. *)
Definition has_key (v : value) (k : string) : bool :=
  match v with
  | PDict items => match assoc k items with Some _ => true | None => false end
  | _ => false
  end.

(** The items that [for x in v] visits. *)
Definition iter (v : value) : result (list value) :=
  match v with
  | PList l => Ok l
  | PDict items => Ok (map (fun kv => PStr (fst kv)) items)
  | PStr s => Ok (map (fun c => PStr (String c EmptyString)) (list_ascii_of_string s))
  | _ => Err TypeError
  end.

(** [v == s] for a string [s]. *)
Definition eq_str (v : value) (s : string) : bool :=
  match v with
  | PStr t => String.eqb t s
  | _ => false
  end.

(** ** Numeric literals *)

Module Lex.

(** The ASCII characters that [str.strip()] removes. *)
Definition is_space (c : ascii) : bool :=
  let n := N_of_ascii c in
  ((n =? 32) || ((9 <=? n) && (n <=? 13)) || ((28 <=? n) && (n <=? 31)))%N.

(** The characters that C's [isspace] knows. *)
Definition is_c_space (c : ascii) : bool :=
  let n := N_of_ascii c in
  ((n =? 32) || ((9 <=? n) && (n <=? 13)))%N.

Definition digit_val (c : ascii) : option N :=
  let n := N_of_ascii c in
  if ((48 <=? n) && (n <=? 57))%N then Some (n - 48)%N else None.

Definition is_digit (c : ascii) : bool :=
  match digit_val c with Some _ => true | None => false end.

Definition lower (c : ascii) : ascii :=
  let n := N_of_ascii c in
  if ((65 <=? n) && (n <=? 90))%N then ascii_of_N (n + 32) else c.

Fixpoint lstrip (space : ascii -> bool) (cs : list ascii) : list ascii :=
  match cs with
  | c :: cs' => if space c then lstrip space cs' else cs
  | [] => []
  end.

(** The text without the spaces at its two ends. *)
Definition strip (space : ascii -> bool) (cs : list ascii) : list ascii :=
  rev (lstrip space (rev (lstrip space cs))).

Definition scan_sign (cs : list ascii) : bool * list ascii :=
  match cs with
  | "-"%char :: r => (true, r)
  | "+"%char :: r => (false, r)
  | _ => (false, cs)
  end.

(** Reads a run of digits, continuing the number [acc]; [n] counts the
    digits of this run.  With [us] a single underscore between two digits
    is skipped (Python's [digitpart]). *)
Fixpoint scan_digits (us : bool) (acc : N) (n : nat) (cs : list ascii)
  : N * nat * list ascii :=
  match cs with
  | c :: cs' =>
      match digit_val c with
      | Some d => scan_digits us (10 * acc + d)%N (S n) cs'
      | None =>
          if us && Ascii.eqb c "_"%char && negb (Nat.eqb n 0) then
            match cs' with
            | c2 :: _ => if is_digit c2 then scan_digits us acc n cs' else (acc, n, cs)
            | [] => (acc, n, cs)
            end
          else (acc, n, cs)
      end
  | [] => (acc, n, cs)
  end.

(** An unsigned decimal literal: digits with an optional fraction, at
    least one digit in all, and an optional exponent.  Returns the
    coefficient, the exponent, whether the literal is written as an
    integer, and the text left. *)
Definition scan_number (us : bool) (cs : list ascii)
  : option (N * Z * bool * list ascii) :=
  let '(i, ni, r1) := scan_digits us 0%N 0%nat cs in
  let '(c, nf, r2, dot) :=
    match r1 with
    | "."%char :: r =>
        let '(c, nf, r2) := scan_digits us i 0%nat r in (c, nf, r2, true)
    | _ => (i, 0%nat, r1, false)
    end in
  if Nat.eqb (ni + nf) 0 then None
  else
    match r2 with
    | e :: r3 =>
        if Ascii.eqb (lower e) "e"%char then
          let '(eneg, r4) := scan_sign r3 in
          let '(x, nx, r5) := scan_digits us 0%N 0%nat r4 in
          if Nat.eqb nx 0 then None
          else Some (c, (if eneg then - Z.of_N x else Z.of_N x) - Z.of_nat nf, false, r5)
        else Some (c, - Z.of_nat nf, negb dot, r2)
    | [] => Some (c, - Z.of_nat nf, negb dot, r2)
    end.

Definition word (cs : list ascii) : string :=
  string_of_list_ascii (map lower cs).

End Lex.

(** [float(s)] for a string: [None] when Python raises [ValueError]. *)
Definition float_of_string (s : string) : option float :=
  let text := Lex.strip Lex.is_space (list_ascii_of_string s) in
  let '(neg, r) := Lex.scan_sign text in
  match Lex.scan_number true r with
  | Some (c, e, _, []) => Some (FNum neg c e)
  | Some _ => None
  | None =>
      let w := Lex.word r in
      if String.eqb w "inf" || String.eqb w "infinity" then Some (FInf neg)
      else if String.eqb w "nan" then Some FNaN
      else None
  end.

(** [int(s)] for a string, base ten. *)
Definition int_of_string (s : string) : option Z :=
  let text := Lex.strip Lex.is_space (list_ascii_of_string s) in
  let '(neg, r) := Lex.scan_sign text in
  match Lex.scan_digits true 0%N 0%nat r with
  | (_, O, _) => None
  | (c, _, []) => Some (if neg then - Z.of_N c else Z.of_N c)
  | _ => None
  end.

(** [Decimal(s)] for a string: surrounding whitespace is stripped and
    underscores are removed before the literal is read; [None] when Python
    raises [InvalidOperation]. *)
Definition Decimal_of_string (s : string) : option Decimal :=
  let cs := filter (fun c => negb (Ascii.eqb c "_"%char))
                   (Lex.strip Lex.is_space (list_ascii_of_string s)) in
  let '(neg, r) := Lex.scan_sign cs in
  match Lex.scan_number false r with
  | Some (c, e, _, []) => Some (DFinite neg c e)
  | Some _ => None
  | None =>
      let w := map Lex.lower r in
      if String.eqb (string_of_list_ascii w) "inf"
         || String.eqb (string_of_list_ascii w) "infinity" then Some (DInf neg)
      else
        let '(sig, w') :=
          match w with
          | "s"%char :: t => (true, t)
          | _ => (false, w)
          end in
        match w' with
        | "n"%char :: "a"%char :: "n"%char :: t =>
            match Lex.scan_digits false 0%N 0%nat t with
            | (dg, _, []) => Some (DNaN neg sig dg)
            | _ => None
            end
        | _ => None
        end
  end.

(** The constructor [Decimal(v)]. *)
Definition Decimal_new (v : value) : result Decimal :=
  match v with
  | PStr s =>
      match Decimal_of_string s with
      | Some d => Ok d
      | None => Err InvalidOperation
      end
  | PInt z => Ok (DFinite (z <? 0) (Z.abs_N z) 0)
  | PBool b => Ok (DFinite false (if b then 1%N else 0%N) 0)
  | PFloat (FNum neg c e) => Ok (DFinite neg c e)
  | PFloat (FInf neg) => Ok (DInf neg)
  | PFloat FNaN => Ok (DNaN false false 0)
  | PDecimal d => Ok d
  | PList _ => Err ValueError
  | PNone | PTimestamp _ | PDict _ | PNaT => Err TypeError
  end.

(** [d > 0] holds. *)
Definition Decimal_gt0 (d : Decimal) : bool :=
  match d with
  | DFinite false c _ => (0 <? c)%N
  | DInf false => true
  | _ => false
  end.

(** ** Trading-rule parsers *)

Fixpoint _get_from_filters_loop (fs : list value) (filter_type field_name : string)
  : result value :=
  match fs with
  | [] => Ok PNone
  | f :: fs' =>
      t <- getitem f "filterType" ;;
      if eq_str t filter_type then getitem f field_name
      else _get_from_filters_loop fs' filter_type field_name
  end.

(** The loop returns the field of the first filter of the given type; when
    it runs to the end the function returns nothing, that is [None]. *)
Definition _get_from_filters (filters : value) (filter_type field_name : string)
  : result value :=
  fs <- iter filters ;;
  _get_from_filters_loop fs filter_type field_name.

Definition _parse_usdt_futures_syminfo (info : value) : result value :=
  filters <- getitem info "filters" ;;
  symbol <- getitem info "symbol" ;;
  contract_type <- getitem info "contractType" ;;
  status <- getitem info "status" ;;
  base_asset <- getitem info "baseAsset" ;;
  quote_asset <- getitem info "quoteAsset" ;;
  margin_asset <- getitem info "marginAsset" ;;
  price_tick <- (t <- _get_from_filters filters "PRICE_FILTER" "tickSize" ;; Decimal_new t) ;;
  lot_size <- (t <- _get_from_filters filters "LOT_SIZE" "stepSize" ;; Decimal_new t) ;;
  min_notional_value <-
    (t <- _get_from_filters filters "MIN_NOTIONAL" "notional" ;; Decimal_new t) ;;
  Ok (PDict [("symbol", symbol);
             ("contract_type", contract_type);
             ("status", status);
             ("base_asset", base_asset);
             ("quote_asset", quote_asset);
             ("margin_asset", margin_asset);
             ("price_tick", PDecimal price_tick);
             ("lot_size", PDecimal lot_size);
             ("min_notional_value", PDecimal min_notional_value)]).

Definition _parse_coin_futures_syminfo (info : value) : result value :=
  filters <- getitem info "filters" ;;
  symbol <- getitem info "symbol" ;;
  contract_type <- getitem info "contractType" ;;
  status <- getitem info "contractStatus" ;;
  base_asset <- getitem info "baseAsset" ;;
  quote_asset <- getitem info "quoteAsset" ;;
  margin_asset <- getitem info "marginAsset" ;;
  price_tick <- (t <- _get_from_filters filters "PRICE_FILTER" "tickSize" ;; Decimal_new t) ;;
  lot_size <- (t <- getitem info "contractSize" ;; Decimal_new t) ;;
  Ok (PDict [("symbol", symbol);
             ("contract_type", contract_type);
             ("status", status);
             ("base_asset", base_asset);
             ("quote_asset", quote_asset);
             ("margin_asset", margin_asset);
             ("price_tick", PDecimal price_tick);
             ("lot_size", PDecimal lot_size)]).

Definition _parse_spot_syminfo (info : value) : result value :=
  filters <- getitem info "filters" ;;
  symbol <- getitem info "symbol" ;;
  status <- getitem info "status" ;;
  base_asset <- getitem info "baseAsset" ;;
  quote_asset <- getitem info "quoteAsset" ;;
  price_tick <- (t <- _get_from_filters filters "PRICE_FILTER" "tickSize" ;; Decimal_new t) ;;
  lot_size <- (t <- _get_from_filters filters "LOT_SIZE" "stepSize" ;; Decimal_new t) ;;
  min_notional_value <-
    (t <- _get_from_filters filters "NOTIONAL" "minNotional" ;; Decimal_new t) ;;
  Ok (PDict [("symbol", symbol);
             ("status", status);
             ("base_asset", base_asset);
             ("quote_asset", quote_asset);
             ("price_tick", PDecimal price_tick);
             ("lot_size", PDecimal lot_size);
             ("min_notional_value", PDecimal min_notional_value)]).

(** [BinanceFetcher.TYPE_MAP]. *)
Definition TYPE_MAP : list (string * (value -> result value)) :=
  [("usdt_futures", _parse_usdt_futures_syminfo);
   ("coin_futures", _parse_coin_futures_syminfo);
   ("spot", _parse_spot_syminfo)].

(** *** What the parsers read, for the statements below *)

(** The venue field that a variant reads its price tick from. *)
Definition tick_source (info : value) : result value :=
  filters <- getitem info "filters" ;;
  _get_from_filters filters "PRICE_FILTER" "tickSize".

(** The venue field that a variant reads its lot size from. *)
Definition lot_source (type_ : string) (info : value) : result value :=
  if String.eqb type_ "coin_futures" then getitem info "contractSize"
  else
    filters <- getitem info "filters" ;;
    _get_from_filters filters "LOT_SIZE" "stepSize".

(** The filter types that a variant looks up. *)
Definition required_filters (type_ : string) : list string :=
  if String.eqb type_ "usdt_futures" then ["PRICE_FILTER"; "LOT_SIZE"; "MIN_NOTIONAL"]
  else if String.eqb type_ "coin_futures" then ["PRICE_FILTER"]
  else if String.eqb type_ "spot" then ["PRICE_FILTER"; "LOT_SIZE"; "NOTIONAL"]
  else [].

(** [f] is a filter entry of type [filter_type]. *)
Definition is_filter_of_type (filter_type : string) (f : value) : bool :=
  match getitem f "filterType" with
  | Ok t => eq_str t filter_type
  | Err _ => false
  end.

(** The [filters] field of [info] is a list with no entry of type
    [filter_type]. *)
Definition lacks_filter (info : value) (filter_type : string) : bool :=
  match getitem info "filters" with
  | Ok (PList fs) => negb (existsb (is_filter_of_type filter_type) fs)
  | _ => false
  end.

(** Both [price_tick] and [lot_size] of a rule are decimals above zero. *)
Definition ticks_positive (rule : value) : bool :=
  match getitem rule "price_tick", getitem rule "lot_size" with
  | Ok (PDecimal p), Ok (PDecimal l) => Decimal_gt0 p && Decimal_gt0 l
  | _, _ => false
  end.

(** ** A model of pandas frames *)

(** The unit in which a datetime column is stored: nanoseconds, the unit of
    the result of [pd.to_datetime], or milliseconds, which a polars
    [Datetime('ms')] column keeps through [to_pandas]. *)
Inductive time_unit : Type := unit_ns | unit_ms.

(** A frame is stored by column, as pandas does: the index labels, and for
    each column its name and its cells, one per row.  The kind of a cell
    (integer, float, text, timestamp) is the type of its column; for the
    datetime columns [units] tells the storage unit besides.  The unit of
    the index is not represented. *)
Record DataFrame : Type := mkDataFrame {
  index_name : option string;
  index : list value;
  data : list (string * list value);
  units : list (string * time_unit)
}.

Definition columns (df : DataFrame) : list string := map fst (data df).

Definition RangeIndex (n : nat) : list value :=
  map (fun i => PInt (Z.of_nat i)) (seq 0 n).

(** [pd.DataFrame(rows, columns=cols)] for a list of rows: short rows are
    filled with [None] up to the longest one, whose length must be the number
    of column names. *)
Definition pd_DataFrame (rows : list (list value)) (cols : list string)
  : result DataFrame :=
  let width := list_max (map (@List.length value) rows) in
  if negb (Nat.eqb (List.length rows) 0) && negb (Nat.eqb width (List.length cols))
  then Err ValueError
  else Ok {| index_name := None;
             index := RangeIndex (List.length rows);
             data := map (fun jc => (snd jc, map (fun r => nth (fst jc) r PNone) rows))
                         (combine (seq 0 (List.length cols)) cols);
             units := [] |}.

(** [df[name]]. *)
Definition getcol (name : string) (df : DataFrame) : result (list value) :=
  match assoc name (data df) with
  | Some c => Ok c
  | None => Err KeyError
  end.

Fixpoint set_assoc {A : Type} (name : string) (x : A) (items : list (string * A))
  : list (string * A) :=
  match items with
  | [] => [(name, x)]
  | (k, y) :: rest =>
      if String.eqb name k then (k, x) :: rest else (k, y) :: set_assoc name x rest
  end.

Definition remove_cols {A : Type} (names : list string) (items : list (string * A))
  : list (string * A) :=
  filter (fun kv => negb (existsb (String.eqb (fst kv)) names)) items.

(** [df[name] = cells]: replaces the column, or appends a new one.  No unit
    is recorded for the cells assigned. *)
Definition setcol (name : string) (cells : list value) (df : DataFrame) : DataFrame :=
  {| index_name := index_name df;
     index := index df;
     data := set_assoc name cells (data df);
     units := remove_cols [name] (units df) |}.

(** [df[name] = cells] for the result of [pd.to_datetime], stored in
    nanoseconds. *)
Definition setcol_datetime (name : string) (cells : list value) (df : DataFrame)
  : DataFrame :=
  {| index_name := index_name df;
     index := index df;
     data := set_assoc name cells (data df);
     units := set_assoc name unit_ns (units df) |}.

(** [df.drop(columns=names)]: every name must be a column. *)
Definition drop (names : list string) (df : DataFrame) : result DataFrame :=
  if forallb (fun n => existsb (String.eqb n) (columns df)) names
  then Ok {| index_name := index_name df;
             index := index df;
             data := remove_cols names (data df);
             units := remove_cols names (units df) |}
  else Err KeyError.

(** [df.set_index(name)]. *)
Definition set_index (name : string) (df : DataFrame) : result DataFrame :=
  c <- getcol name df ;;
  Ok {| index_name := Some name;
        index := c;
        data := remove_cols [name] (data df);
        units := remove_cols [name] (units df) |}.

(** [s.take(indexer)]: the cells at the given positions, in that order. *)
Definition take (indexer : list nat) (cells : list value) : list value :=
  map (fun i => nth i cells PNone) indexer.

(** The sort key of a cell of a datetime or integer column. *)
Definition sort_key (v : value) : result Z :=
  match v with
  | PTimestamp ms => Ok ms
  | PInt z => Ok z
  | _ => Err TypeError
  end.

(** [df.sort_values(name, ignore_index=True)]: the rows are taken in the
    order that [argsort] computes from the key column, and the index is
    reset. *)
Definition sort_values (argsort : list Z -> list nat) (name : string) (df : DataFrame)
  : result DataFrame :=
  c <- getcol name df ;;
  keys <- mapM sort_key c ;;
  let indexer := argsort keys in
  Ok {| index_name := None;
        index := RangeIndex (List.length indexer);
        data := map (fun kv => (fst kv, take indexer (snd kv))) (data df);
        units := units df |}.

(** What is asked of an [argsort]: its result lists every position once, and
    the keys read in that order never decrease.  The order of equal keys is
    left open, as it is by pandas' default quicksort and by polars' sort. *)
Definition argsort_spec (argsort : list Z -> list nat) : Prop :=
  forall keys,
    Permutation (argsort keys) (seq 0 (List.length keys)) /\
    Sorted Z.le (map (fun i => nth i keys 0) (argsort keys)).

Fixpoint insert_by_key (strict : bool) (keys : list Z) (i : nat) (l : list nat)
  : list nat :=
  match l with
  | [] => [i]
  | j :: l' =>
      if (if strict then nth i keys 0 <? nth j keys 0 else nth i keys 0 <=? nth j keys 0)
      then i :: l
      else j :: insert_by_key strict keys i l'
  end.

(** A stable argsort, by insertion from the right: rows with equal keys keep
    their order. *)
Definition stable_argsort (keys : list Z) : list nat :=
  fold_right (insert_by_key false keys) [] (seq 0 (List.length keys)).

(** Another argsort, which puts rows with equal keys in reverse order. *)
Definition reversing_argsort (keys : list Z) : list nat :=
  fold_right (insert_by_key true keys) [] (seq 0 (List.length keys)).

(** *** Cell conversions *)

Definition in_int64 (z : Z) : bool := (- 2 ^ 63 <=? z) && (z <? 2 ^ 63).

(** The integer part of [(-1)^neg * c * 10^e], towards zero. *)
Definition trunc (neg : bool) (c : N) (e : Z) : Z :=
  let m := Z.quot (Z.of_N c * 10 ^ Z.max e 0) (10 ^ Z.max (- e) 0) in
  if neg then - m else m.

Definition to_int64 (z : Z) : result value :=
  if in_int64 z then Ok (PInt z) else Err OverflowError.

(** [astype('int64')] of one cell of an object column: [int(v)], stored in
    64 bits. *)
Definition astype_int64 (v : value) : result value :=
  match v with
  | PInt z => to_int64 z
  | PBool b => Ok (PInt (Z.b2z b))
  | PStr s =>
      match int_of_string s with
      | Some z => to_int64 z
      | None => Err ValueError
      end
  | PFloat (FNum neg c e) => to_int64 (trunc neg c e)
  | PFloat (FInf _) => Err OverflowError
  | PFloat FNaN => Err ValueError
  | PDecimal (DFinite neg c e) => to_int64 (trunc neg c e)
  | PDecimal (DInf _) => Err OverflowError
  | PDecimal (DNaN _ _ _) => Err ValueError
  | PNone | PTimestamp _ | PList _ | PDict _ | PNaT => Err TypeError
  end.

(** [astype(float)] of one cell of an object column: [float(v)], with
    [None] read as NaN. *)
Definition astype_float (v : value) : result value :=
  match v with
  | PFloat f => Ok (PFloat f)
  | PInt z => Ok (PFloat (FNum (z <? 0) (Z.abs_N z) 0))
  | PBool b => Ok (PFloat (FNum false (if b then 1%N else 0%N) 0))
  | PStr s =>
      match float_of_string s with
      | Some f => Ok (PFloat f)
      | None => Err ValueError
      end
  | PNone => Ok (PFloat FNaN)
  | PDecimal (DFinite neg c e) => Ok (PFloat (FNum neg c e))
  | PDecimal (DInf neg) => Ok (PFloat (FInf neg))
  | PDecimal (DNaN _ false _) => Ok (PFloat FNaN)
  | PDecimal (DNaN _ true _) => Err ValueError
  | PTimestamp _ | PList _ | PDict _ | PNaT => Err TypeError
  end.

(** pandas keeps a timestamp as a 64-bit count of nanoseconds. *)
Definition in_ns_range (ms : Z) : bool := in_int64 (ms * 1000000).

(** [pd.to_datetime(s, unit='ms', utc=True)] of one cell of an integer
    column. *)
Definition to_datetime_ms (v : value) : result value :=
  match v with
  | PInt ms => if in_ns_range ms then Ok (PTimestamp ms) else Err OutOfBoundsDatetime
  | _ => Err TypeError
  end.

(** [t + delta] for one cell of a datetime column stored in nanoseconds and
    a duration counted in milliseconds; a missing timestamp stays missing. *)
Definition add_timedelta (delta : Z) (v : value) : result value :=
  match v with
  | PTimestamp ms =>
      if in_ns_range (ms + delta) then Ok (PTimestamp (ms + delta)) else Err OverflowError
  | PNaT => Ok PNaT
  | _ => Err TypeError
  end.

(** A timestamp that fits a 64-bit count of microseconds. *)
Definition in_us_range (ms : Z) : bool := in_int64 (ms * 1000).

(** [t + delta] for one cell of a datetime column stored in milliseconds.
    The duration is taken to be a [datetime.timedelta], as the name of the
    collaborator says; pandas holds it in microseconds and widens the column
    to microseconds for the sum: both the cell and the sum must fit. *)
Definition add_timedelta_ms (delta : Z) (v : value) : result value :=
  match v with
  | PTimestamp ms =>
      if in_us_range ms && in_us_range (ms + delta)
      then Ok (PTimestamp (ms + delta))
      else Err OutOfBoundsDatetime
  | PNaT => Ok PNaT
  | _ => Err TypeError
  end.

(** [df[name] = df[name].astype(...)] with the conversion [f] of a cell. *)
Definition astype (name : string) (f : value -> result value) (df : DataFrame)
  : result DataFrame :=
  c <- getcol name df ;;
  c' <- mapM f c ;;
  Ok (setcol name c' df).

(** [df.astype(dtypes)]: the columns are converted one after the other. *)
Fixpoint astype_all (dtypes : list (string * (value -> result value))) (df : DataFrame)
  : result DataFrame :=
  match dtypes with
  | [] => Ok df
  | (name, f) :: rest => df' <- astype name f df ;; astype_all rest df'
  end.

(** ** A model of polars frames *)

Inductive dtype : Type := Int64 | Float64 | Datetime_ms.

(** A polars column: its type, unknown when the schema gives [None] for
    it, and its cells.  A missing cell (null) is written [PNone]. *)
Definition Series : Type := (option dtype * list value)%type.

(** A polars frame has columns and no index.  The steps of the lazy plan
    are run in the order in which the source writes them: none of them reads
    anything but the frame, so that it makes no difference that polars runs
    them at [collect]. *)
Definition LazyFrame : Type := list (string * Series).

Definition is_null (v : value) : bool :=
  match v with
  | PNone => true
  | _ => false
  end.

(** The cast of a cell to the type that the schema gives its column.  [None]
    in the payload is a null in a column of any type, and [None] in the
    schema leaves the column as it is read.  On the other cells of a venue
    payload (integers for times and counts, numeric strings for prices and
    volumes) the cast is taken to read a cell as pandas' [astype] does. *)
Definition pl_cast (d : option dtype) (v : value) : result value :=
  match v with
  | PNone => Ok PNone
  | _ =>
      match d with
      | Some Int64 => astype_int64 v
      | Some Float64 => astype_float v
      | Some Datetime_ms => Err TypeError
      | None => Ok v
      end
  end.

(** [pl.LazyFrame(rows, schema=schema, orient='row')]: every row has one cell
    per schema entry. *)
Definition pl_LazyFrame (rows : list (list value)) (schema : list (string * option dtype))
  : result LazyFrame :=
  if forallb (fun r => Nat.eqb (List.length r) (List.length schema)) rows
  then mapM (fun jc =>
               c <- mapM (pl_cast (snd (snd jc))) (map (fun r => nth (fst jc) r PNone) rows) ;;
               Ok (fst (snd jc), (snd (snd jc), c)))
            (combine (seq 0 (List.length schema)) schema)
  else Err (OtherError "polars.ShapeError").

Definition pl_col (name : string) (lf : LazyFrame) : result (list value) :=
  match assoc name lf with
  | Some c => Ok (snd c)
  | None => Err (OtherError "polars.ColumnNotFoundError")
  end.

(** [lf.drop(names)]. *)
Definition pl_drop (names : list string) (lf : LazyFrame) : result LazyFrame :=
  if forallb (fun n => existsb (String.eqb n) (map fst lf)) names
  then Ok (remove_cols names lf)
  else Err (OtherError "polars.ColumnNotFoundError").

(** [lf.with_columns(f(pl.col(src)).alias(name))], the result being of type
    [d]. *)
Definition pl_with_column (name src : string) (f : value -> result value) (d : dtype)
    (lf : LazyFrame) : result LazyFrame :=
  c <- pl_col src lf ;;
  c' <- mapM f c ;;
  Ok (set_assoc name (Some d, c') lf).

(** [cast(pl.Datetime('ms')).dt.replace_time_zone('UTC')] of one cell of an
    [Int64] column: the count of milliseconds is kept as it is, a null stays
    a null. *)
Definition pl_cast_datetime_ms (v : value) : result value :=
  match v with
  | PInt ms => Ok (PTimestamp ms)
  | PNone => Ok PNone
  | _ => Err TypeError
  end.

(** [pl.col(...) + delta] of one cell of a datetime column.  The column
    computed this way is replaced after [to_pandas]; what matters is that
    the step cannot fail. *)
Definition pl_add_duration (delta : Z) (v : value) : result value :=
  match v with
  | PTimestamp ms => Ok (PTimestamp (ms + delta))
  | PNone => Ok PNone
  | _ => Err TypeError
  end.

(** The positions of the cells of [c] that pass the test, in order. *)
Definition positions (test : value -> bool) (c : list value) : list nat :=
  filter (fun i => test (nth i c PNone)) (seq 0 (List.length c)).

(** The order in which [lf.sort(name)] reads the rows: the rows without a
    key first, kept here in the order of the payload, then the others in the
    order that [argsort] computes from their keys. *)
Definition pl_indexer (argsort : list Z -> list nat) (c : list value)
  : result (list nat) :=
  let keyed := positions (fun v => negb (is_null v)) c in
  keys <- mapM (fun i => sort_key (nth i c PNone)) keyed ;;
  Ok (positions is_null c ++ map (fun j => nth j keyed 0%nat) (argsort keys))%list.

(** [lf.sort(name)]. *)
Definition pl_sort (argsort : list Z -> list nat) (name : string) (lf : LazyFrame)
  : result LazyFrame :=
  c <- pl_col name lf ;;
  indexer <- pl_indexer argsort c ;;
  Ok (map (fun kv => (fst kv, (fst (snd kv), take indexer (snd (snd kv))))) lf).

(** A null of a float column is NaN for pandas. *)
Definition nan_if_null (v : value) : value :=
  if is_null v then PFloat FNaN else v.

(** A null of a datetime column is NaT for pandas. *)
Definition nat_if_null (v : value) : value :=
  if is_null v then PNaT else v.

(** A cell of an integer column that has a null: pandas has no integer to
    stand for the null, and takes the column as floats. *)
Definition float_if_int (v : value) : value :=
  match v with
  | PInt z => PFloat (FNum (z <? 0) (Z.abs_N z) 0)
  | PNone => PFloat FNaN
  | _ => v
  end.

(** The cells of a polars column as [to_pandas] hands them over.  A null of
    a float column becomes NaN and a null of a datetime column NaT; an
    integer column that has a null becomes a float column, its integers
    floats and its nulls NaN.  Timestamps keep their count of
    milliseconds. *)
Definition to_pandas_cells (s : Series) : list value :=
  match fst s with
  | Some Int64 =>
      if existsb is_null (snd s) then map float_if_int (snd s) else snd s
  | Some Float64 => map nan_if_null (snd s)
  | Some Datetime_ms => map nat_if_null (snd s)
  | None => snd s
  end.

Arguments to_pandas_cells : simpl never.

Definition is_datetime (s : Series) : bool :=
  match fst s with
  | Some Datetime_ms => true
  | _ => false
  end.

(** [lf.collect().to_pandas()]: the columns under a fresh range index, the
    datetime columns stored in milliseconds as they were. *)
Definition to_pandas (lf : LazyFrame) : DataFrame :=
  {| index_name := None;
     index := RangeIndex (match lf with
                          | [] => 0%nat
                          | kv :: _ => List.length (snd (snd kv))
                          end);
     data := map (fun kv => (fst kv, to_pandas_cells (snd kv))) lf;
     units := map (fun kv => (fst kv, unit_ms)) (filter (fun kv => is_datetime (snd kv)) lf) |}.

(** ** Candle normalisation *)

Definition kline_columns : list string :=
  ["candle_begin_time"; "open"; "high"; "low"; "close"; "volume"; "close_time";
   "quote_volume"; "trade_num"; "taker_buy_base_asset_volume";
   "taker_buy_quote_asset_volume"; "ignore"].

(** [df['candle_end_time'] = df['candle_begin_time'] + delta]: the sum is
    computed as the unit of the begin times asks.  No unit is recorded for
    the new column, which all three variants make the index. *)
Definition add_candle_end_time (delta : Z) (df : DataFrame) : result DataFrame :=
  b <- getcol "candle_begin_time" df ;;
  e <- mapM (match assoc "candle_begin_time" (units df) with
             | Some unit_ms => add_timedelta_ms delta
             | _ => add_timedelta delta
             end) b ;;
  Ok (setcol "candle_end_time" e df).

(** The interval collaborator [convert_interval_to_timedelta] is a parameter
    of the three variants: it gives the duration of a tag in milliseconds, or
    fails. *)
Definition get_candle_with_original_pandas
    (convert_interval_to_timedelta : value -> result Z)
    (klines : list (list value)) (interval : value) : result DataFrame :=
  df <- pd_DataFrame klines kline_columns ;;
  df <- drop ["ignore"; "close_time"] df ;;
  df <- (c <- getcol "candle_begin_time" df ;;
         c <- mapM astype_int64 c ;;
         c <- mapM to_datetime_ms c ;;
         Ok (setcol_datetime "candle_begin_time" c df)) ;;
  df <- astype_all [("open", astype_float); ("high", astype_float); ("low", astype_float);
                    ("close", astype_float); ("volume", astype_float);
                    ("quote_volume", astype_float); ("trade_num", astype_float);
                    ("taker_buy_base_asset_volume", astype_float);
                    ("taker_buy_quote_asset_volume", astype_float)] df ;;
  delta <- convert_interval_to_timedelta interval ;;
  df <- add_candle_end_time delta df ;;
  set_index "candle_end_time" df.

Definition get_candle_with_pandas
    (argsort : list Z -> list nat)
    (convert_interval_to_timedelta : value -> result Z)
    (klines : list (list value)) (interval : value) : result DataFrame :=
  df <- pd_DataFrame klines kline_columns ;;
  df <- drop ["ignore"; "close_time"] df ;;
  df <- astype_all [("candle_begin_time", astype_int64); ("open", astype_float);
                    ("high", astype_float); ("low", astype_float);
                    ("close", astype_float); ("volume", astype_float);
                    ("quote_volume", astype_float); ("trade_num", astype_int64);
                    ("taker_buy_base_asset_volume", astype_float);
                    ("taker_buy_quote_asset_volume", astype_float)] df ;;
  df <- (c <- getcol "candle_begin_time" df ;;
         c <- mapM to_datetime_ms c ;;
         Ok (setcol_datetime "candle_begin_time" c df)) ;;
  df <- sort_values argsort "candle_begin_time" df ;;
  delta <- convert_interval_to_timedelta interval ;;
  df <- add_candle_end_time delta df ;;
  set_index "candle_end_time" df.

Definition polar_schema : list (string * option dtype) :=
  [("candle_begin_time", Some Int64); ("open", Some Float64); ("high", Some Float64);
   ("low", Some Float64); ("close", Some Float64); ("volume", Some Float64);
   ("close_time", None); ("quote_volume", Some Float64); ("trade_num", Some Int64);
   ("taker_buy_base_asset_volume", Some Float64);
   ("taker_buy_quote_asset_volume", Some Float64); ("ignore", None)].

Definition get_candle_with_polar
    (argsort : list Z -> list nat)
    (convert_interval_to_timedelta : value -> result Z)
    (klines : list (list value)) (interval : value) : result DataFrame :=
  lf <- pl_LazyFrame klines polar_schema ;;
  lf <- pl_drop ["close_time"; "ignore"] lf ;;
  lf <- pl_with_column "candle_begin_time" "candle_begin_time" pl_cast_datetime_ms
          Datetime_ms lf ;;
  lf <- pl_sort argsort "candle_begin_time" lf ;;
  delta <- convert_interval_to_timedelta interval ;;
  lf <- pl_with_column "candle_end_time" "candle_begin_time" (pl_add_duration delta)
          Datetime_ms lf ;;
  let df := to_pandas lf in
  delta <- convert_interval_to_timedelta interval ;;
  df <- add_candle_end_time delta df ;;
  set_index "candle_end_time" df.

(** ** Funding rates *)

(** The text of a number as [pd.to_numeric] reads it: an optional sign,
    digits with an optional fraction, an optional exponent, or a signed
    [inf]/[infinity]; an integer literal within 64 bits stays an integer.
    [None] when the text is not a number. *)
Definition to_numeric_string (s : string) : option value :=
  let text := Lex.strip Lex.is_c_space (list_ascii_of_string s) in
  let '(neg, r) := Lex.scan_sign text in
  match Lex.scan_number false r with
  | Some (c, e, is_int, []) =>
      let z := if neg then - Z.of_N c else Z.of_N c in
      if is_int && (- 2 ^ 63 <=? z) && (z <? 2 ^ 64) then Some (PInt z)
      else Some (PFloat (FNum neg c e))
  | Some _ => None
  | None =>
      let w := Lex.word r in
      if String.eqb w "inf" || String.eqb w "infinity" then Some (PFloat (FInf neg))
      else None
  end.

Definition is_scalar (v : value) : bool :=
  match v with
  | PList _ | PDict _ => false
  | _ => true
  end.

Definition to_numeric_scalar (v : value) : result value :=
  match v with
  | PStr s =>
      match to_numeric_string s with
      | Some x => Ok x
      | None => Ok (PFloat FNaN)
      end
  | PNone => Ok (PFloat FNaN)
  | PBool _ | PInt _ | PFloat _ => Ok v
  | PDecimal d => astype_float v
  | PTimestamp _ | PNaT => Ok (PFloat FNaN)
  | PList _ | PDict _ => Err TypeError
  end.

(** [pd.to_numeric(v, errors='coerce')]: a number is returned as it is, a
    string is read as a number, and what cannot be read becomes NaN; a list
    of scalars gives the array of its converted items. *)
Definition to_numeric_coerce (v : value) : result value :=
  match v with
  | PList l => if forallb is_scalar l
               then (l' <- mapM to_numeric_scalar l ;; Ok (PList l'))
               else Err TypeError
  | _ => to_numeric_scalar v
  end.

(** [pd.DataFrame.from_records(records)] for a list of dicts that all have
    the keys of the first one: one column per key, one row per record.  The
    cells are kept as the records give them; the common type that pandas
    then gives a column is not represented. *)
Definition from_records (records : list (list (string * value))) : DataFrame :=
  {| index_name := None;
     index := RangeIndex (List.length records);
     data := match records with
             | [] => []
             | r :: _ =>
                 map (fun kv =>
                        (fst kv,
                         map (fun r' => match assoc (fst kv) r' with
                                        | Some x => x
                                        | None => PFloat FNaN
                                        end) records))
                     r
             end;
     units := [] |}.

(** The record that the comprehension of [get_funding_rate] builds from one
    entry of the listing. *)
Definition funding_record (d : value) : result (list (string * value)) :=
  symbol <- getitem d "symbol" ;;
  rate <- (r <- getitem d "lastFundingRate" ;; to_numeric_coerce r) ;;
  Ok [("symbol", symbol); ("fundingRate", rate)].

Definition funding_table (listing : value) : result DataFrame :=
  ds <- iter listing ;;
  records <- mapM funding_record ds ;;
  Ok (from_records records).

(** ** Dictionaries keyed by Python values *)

Definition pydict : Type := list (value * value).

Definition hashable (v : value) : bool :=
  match v with
  | PList _ | PDict _ => false
  | _ => true
  end.

(** The number that a key stands for, as mantissa and decimal exponent. *)
Definition key_number (v : value) : option (Z * Z) :=
  match v with
  | PBool b => Some (Z.b2z b, 0)
  | PInt z => Some (z, 0)
  | PFloat (FNum neg c e) => Some (if neg then - Z.of_N c else Z.of_N c, e)
  | PDecimal (DFinite neg c e) => Some (if neg then - Z.of_N c else Z.of_N c, e)
  | _ => None
  end.

(** [a == b] for two hashable keys: numbers are compared by value. *)
Definition key_eqb (a b : value) : bool :=
  match a, b with
  | PNone, PNone => true
  | PStr s, PStr t => String.eqb s t
  | PTimestamp x, PTimestamp y => x =? y
  | PFloat (FInf x), PFloat (FInf y) => Bool.eqb x y
  | PFloat (FInf x), PDecimal (DInf y) => Bool.eqb x y
  | PDecimal (DInf x), PFloat (FInf y) => Bool.eqb x y
  | PDecimal (DInf x), PDecimal (DInf y) => Bool.eqb x y
  | _, _ =>
      match key_number a, key_number b with
      | Some (m1, e1), Some (m2, e2) =>
          let e := Z.min e1 e2 in
          m1 * 10 ^ (e1 - e) =? m2 * 10 ^ (e2 - e)
      | _, _ => false
      end
  end.

Fixpoint dict_update (d : pydict) (k v : value) : pydict :=
  match d with
  | [] => [(k, v)]
  | (k', v') :: rest =>
      if key_eqb k' k then (k', v) :: rest else (k', v') :: dict_update rest k v
  end.

(** [d[k] = v]: an equal key keeps its place and takes the new value. *)
Definition dict_setitem (d : pydict) (k v : value) : result pydict :=
  if hashable k then Ok (dict_update d k v) else Err TypeError.

(** The values that [d] holds under the string key [s]. *)
Definition rules_for (s : string) (d : pydict) : list value :=
  map snd (filter (fun kv => eq_str (fst kv) s) d).

(** ** The fetcher and its collaborators *)

(** The objects of the collaborators are opaque to the fetcher; only their
    identity is represented. *)
Inductive Session : Type := mkSession (id : N).
Inductive MarketApi : Type := mkMarketApi (id : N).

(** What the fetcher asks of its collaborators, with the type of the answer:
    the factory of the market API, the requests of that API, and the retry
    policy around a request. *)
Inductive call : Type -> Type :=
| create_binance_market_api (type_ : value) (session : Session) : call MarketApi
| aioreq_exchange_info (api : MarketApi) : call value
| aioreq_klines (api : MarketApi) (symbol interval : value)
                (kwargs : list (string * value)) : call (list (list value))
| aioreq_premium_index (api : MarketApi) : call value
| async_retry_getter (X : Type) (c : call X) : call X.

Arguments async_retry_getter {X} c.

(** A method of the fetcher: it returns, raises, or hands a call to a
    collaborator and goes on with the answer. *)
Inductive prog (A : Type) : Type :=
| Return (a : A)
| Raise (e : exn)
| Perform (X : Type) (c : call X) (k : X -> prog A).

Arguments Return {A} a.
Arguments Raise {A} e.
Arguments Perform {A X} c k.

Definition lift {A : Type} (r : result A) : prog A :=
  match r with
  | Ok a => Return a
  | Err e => Raise e
  end.

Inductive event : Type :=
| Event (X : Type) (c : call X).

Arguments Event {X} c.

(** A request that goes to the venue, as opposed to the making of the API
    object. *)
Fixpoint is_request {X : Type} (c : call X) : bool :=
  match c with
  | create_binance_market_api _ _ => false
  | aioreq_exchange_info _ => true
  | aioreq_klines _ _ _ _ => true
  | aioreq_premium_index _ => true
  | async_retry_getter c' => is_request c'
  end.

Definition event_is_request (ev : event) : bool :=
  match ev with
  | Event c => is_request c
  end.

(** The collaborators, seen from the fetcher: an answer or an exception to
    every call, and a state of their own. *)
Definition handler (S : Type) : Type :=
  forall X : Type, call X -> S -> result X * S.

(** Runs a method against the collaborators; the result comes with their
    final state and the calls made, in order.  An exception of a
    collaborator is not caught by any method. *)
Fixpoint run {S A : Type} (h : handler S) (p : prog A) (s : S)
  : result A * S * list event :=
  match p with
  | Return a => (Ok a, s, [])
  | Raise e => (Err e, s, [])
  | Perform c k =>
      match h _ c s with
      | (Ok x, s') =>
          let '(r, s'', tr) := run h (k x) s' in (r, s'', Event c :: tr)
      | (Err e, s') => (Err e, s', [Event c])
      end
  end.

Record BinanceFetcher : Type := mkBinanceFetcher {
  trade_type : value;
  market_api : MarketApi;
  syminfo_parse_func : value -> result value
}.

(** [type_ in TYPE_MAP] and [TYPE_MAP[type_]] in one: the keys are strings,
    so only an equal string is found; a key must be hashable. *)
Definition TYPE_MAP_get (type_ : value) : result (option (value -> result value)) :=
  if hashable type_ then
    Ok (match type_ with
        | PStr s => assoc s TYPE_MAP
        | _ => None
        end)
  else Err TypeError.

(** [BinanceFetcher.__init__]. *)
Definition __init__ (type_ : value) (session : Session) : prog BinanceFetcher :=
  Perform (create_binance_market_api type_ session) (fun api =>
    match TYPE_MAP_get type_ with
    | Err e => Raise e
    | Ok (Some parse) =>
        Return {| trade_type := type_; market_api := api; syminfo_parse_func := parse |}
    | Ok None => Raise ValueError
    end).

(** The loop of [get_exchange_info]: the rule is parsed first, then the
    symbol is read and the rule stored under it. *)
Fixpoint get_exchange_info_loop (parse : value -> result value) (infos : list value)
    (results : pydict) : result pydict :=
  match infos with
  | [] => Ok results
  | info :: rest =>
      rule <- parse info ;;
      symbol <- getitem info "symbol" ;;
      results' <- dict_setitem results symbol rule ;;
      get_exchange_info_loop parse rest results'
  end.

Definition exchange_info_rules (parse : value -> result value) (exg_info : value)
  : result pydict :=
  symbols <- getitem exg_info "symbols" ;;
  infos <- iter symbols ;;
  get_exchange_info_loop parse infos [].

Definition get_exchange_info (self : BinanceFetcher) : prog pydict :=
  Perform (async_retry_getter (aioreq_exchange_info (market_api self))) (fun exg_info =>
    lift (exchange_info_rules (syminfo_parse_func self) exg_info)).

Definition get_candle (convert_interval_to_timedelta : value -> result Z)
    (self : BinanceFetcher) (symbol interval : value) (kwargs : list (string * value))
  : prog DataFrame :=
  Perform (async_retry_getter (aioreq_klines (market_api self) symbol interval kwargs))
    (fun klines =>
       lift (get_candle_with_original_pandas convert_interval_to_timedelta klines interval)).

Definition get_funding_rate (self : BinanceFetcher) : prog DataFrame :=
  if eq_str (trade_type self) "spot" then Raise RuntimeError
  else
    Perform (aioreq_premium_index (market_api self)) (fun listing =>
      lift (funding_table listing)).

(** ** Collaborator models and sample payloads *)

(** Modelled from the spec: the interval-to-duration collaborator
    [convert_interval_to_timedelta] of [util] is not part of this module.
    The spec gives it as a function over a fixed set of recognised tags that
    fails for any other tag, with one hour for "1h" and 24 hours for "1d";
    the model knows these two and one minute for "1m", in milliseconds. *)
Definition duration_of (interval : value) : result Z :=
  match interval with
  | PStr s =>
      if String.eqb s "1m" then Ok 60000
      else if String.eqb s "1h" then Ok 3600000
      else if String.eqb s "1d" then Ok 86400000
      else Err ValueError
  | _ => Err TypeError
  end.

Definition filter_entry (filter_type field_name text : string) : value :=
  PDict [("filterType", PStr filter_type); (field_name, PStr text)].

(** A USDT-margined symbol-info record with the given tick size. *)
Definition usdt_info (symbol tick : string) : value :=
  PDict [("symbol", PStr symbol);
         ("contractType", PStr "PERPETUAL");
         ("status", PStr "TRADING");
         ("baseAsset", PStr "BTC");
         ("quoteAsset", PStr "USDT");
         ("marginAsset", PStr "USDT");
         ("filters", PList [filter_entry "PRICE_FILTER" "tickSize" tick;
                            filter_entry "LOT_SIZE" "stepSize" "0.001";
                            filter_entry "MIN_NOTIONAL" "notional" "5"])].

(** The same record without its PRICE_FILTER entry. *)
Definition usdt_info_no_price_filter : value :=
  PDict [("symbol", PStr "BTCUSDT");
         ("contractType", PStr "PERPETUAL");
         ("status", PStr "TRADING");
         ("baseAsset", PStr "BTC");
         ("quoteAsset", PStr "USDT");
         ("marginAsset", PStr "USDT");
         ("filters", PList [filter_entry "LOT_SIZE" "stepSize" "0.001";
                            filter_entry "MIN_NOTIONAL" "notional" "5"])].

(** One raw candle: begin time, OHLCV as text, close time, and the rest. *)
Definition raw_kline (begin_ms : Z) (close_price : string) : list value :=
  [PInt begin_ms; PStr "1.0"; PStr "2.0"; PStr "0.5"; PStr close_price; PStr "10";
   PInt (begin_ms + 3599999); PStr "15.0"; PInt 7; PStr "4"; PStr "6.0"; PStr "0"].

(** Two one-hour candles, the later one first. *)
Definition reversed_klines : list (list value) :=
  [raw_kline 3600000 "1.5"; raw_kline 0 "1.0"].

Definition funding_entry (symbol rate : string) : value :=
  PDict [("symbol", PStr symbol); ("lastFundingRate", PStr rate)].

Definition sample_listing : value :=
  PList [funding_entry "BTCUSDT" "0.0001"; funding_entry "XYZUSDT" "-"].

(** An exchange-info payload that lists BTCUSDT twice. *)
Definition sample_exchange_info : value :=
  PDict [("symbols", PList [usdt_info "BTCUSDT" "0.10";
                            usdt_info "ETHUSDT" "0.01";
                            usdt_info "BTCUSDT" "0.50"])].

(** A venue that answers every call with the sample payloads and counts the
    requests it receives. *)
Fixpoint sample_venue (X : Type) (c : call X) (n : nat) : result X * nat :=
  match c in call T return result T * nat with
  | create_binance_market_api _ _ => (Ok (mkMarketApi 1), n)
  | aioreq_exchange_info _ => (Ok sample_exchange_info, S n)
  | aioreq_klines _ _ _ _ => (Ok reversed_klines, S n)
  | aioreq_premium_index _ => (Ok sample_listing, S n)
  | async_retry_getter c' => sample_venue _ c' n
  end.

Definition spot_fetcher : BinanceFetcher :=
  {| trade_type := PStr "spot";
     market_api := mkMarketApi 1;
     syminfo_parse_func := _parse_spot_syminfo |}.

Definition usdt_fetcher : BinanceFetcher :=
  {| trade_type := PStr "usdt_futures";
     market_api := mkMarketApi 1;
     syminfo_parse_func := _parse_usdt_futures_syminfo |}.

(** The venue types that [TYPE_MAP] knows. *)
Definition supported (type_ : value) : bool :=
  eq_str type_ "usdt_futures" || eq_str type_ "coin_futures" || eq_str type_ "spot".

(** The rule that the USDT-margined parser gives for the sample record of a
    symbol, with the given price tick. *)
Definition usdt_rule (symbol : string) (price_tick : Decimal) : value :=
  PDict [("symbol", PStr symbol);
         ("contract_type", PStr "PERPETUAL");
         ("status", PStr "TRADING");
         ("base_asset", PStr "BTC");
         ("quote_asset", PStr "USDT");
         ("margin_asset", PStr "USDT");
         ("price_tick", PDecimal price_tick);
         ("lot_size", PDecimal (DFinite false 1 (-3)));
         ("min_notional_value", PDecimal (DFinite false 5 0))].

(** The rule of the spec's example: tick size "0.10", step size "0.001",
    minimum notional "5". *)
Definition btc_rule : value := usdt_rule "BTCUSDT" (DFinite false 10 (-2)).

(** The symbol table that the sample exchange-info payload gives. *)
Definition sample_rules : pydict :=
  [(PStr "BTCUSDT", usdt_rule "BTCUSDT" (DFinite false 50 (-2)));
   (PStr "ETHUSDT", usdt_rule "ETHUSDT" (DFinite false 1 (-2)))].

(** The symbol-info entry [info] has the string [sym] as its symbol. *)
Definition has_symbol (sym : string) (info : value) : bool :=
  match getitem info "symbol" with
  | Ok k => eq_str k sym
  | Err _ => false
  end.

(** The entry [info] bears the symbol [k]: its symbol is [k], or a key that
    Python takes as equal to [k]. *)
Definition bears_symbol (k : value) (info : value) : Prop :=
  getitem info "symbol" = Ok k \/
  exists k', getitem info "symbol" = Ok k' /\ key_eqb k k' = true.

(** The entries of the listing of an exchange-info payload. *)
Definition listing_of (exg_info : value) : result (list value) :=
  symbols <- getitem exg_info "symbols" ;;
  iter symbols.

(** The frame of funding rows for the given symbols and rates: two columns
    under a range index, and no column at all without rows. *)
Definition funding_frame (symbols rates : list value) : DataFrame :=
  {| index_name := None;
     index := RangeIndex (List.length symbols);
     data := match symbols with
             | [] => []
             | _ :: _ => [("symbol", symbols); ("fundingRate", rates)]
             end;
     units := [] |}.


(** Column [j] of a list of raw rows, [None] where a row is short. *)
Definition raw_column (j : nat) (rows : list (list value)) : list value :=
  map (fun r => nth j r PNone) rows.

(** The begin times that the sorting variants read from a payload. *)
Definition begin_times (klines : list (list value)) : result (list Z) :=
  c <- mapM astype_int64 (raw_column 0 klines) ;;
  mapM sort_key c.

(** The table of two one-hour sample candles with the given begin times,
    closing prices and trade counts, as the pandas variants store it. *)
Definition hourly_table (begins : list Z) (closes trade_nums : list value) : DataFrame :=
  {| index_name := Some "candle_end_time";
     index := map (fun b => PTimestamp (b + 3600000)) begins;
     data := [("candle_begin_time", map PTimestamp begins);
              ("open", [PFloat (FNum false 10 (-1)); PFloat (FNum false 10 (-1))]);
              ("high", [PFloat (FNum false 20 (-1)); PFloat (FNum false 20 (-1))]);
              ("low", [PFloat (FNum false 5 (-1)); PFloat (FNum false 5 (-1))]);
              ("close", closes);
              ("volume", [PFloat (FNum false 10 0); PFloat (FNum false 10 0)]);
              ("quote_volume", [PFloat (FNum false 150 (-1)); PFloat (FNum false 150 (-1))]);
              ("trade_num", trade_nums);
              ("taker_buy_base_asset_volume",
               [PFloat (FNum false 4 0); PFloat (FNum false 4 0)]);
              ("taker_buy_quote_asset_volume",
               [PFloat (FNum false 60 (-1)); PFloat (FNum false 60 (-1))])];
     units := [("candle_begin_time", unit_ns)] |}.

(** The sample candles as [get_candle] returns them. *)
Definition reversed_table : DataFrame :=
  hourly_table [3600000; 0]
               [PFloat (FNum false 15 (-1)); PFloat (FNum false 10 (-1))]
               [PFloat (FNum false 7 0); PFloat (FNum false 7 0)].

(** The sample candles as the sorting variants return them. *)
Definition sorted_table : DataFrame :=
  hourly_table [0; 3600000]
               [PFloat (FNum false 10 (-1)); PFloat (FNum false 15 (-1))]
               [PInt 7; PInt 7].

(** The frame [df] with its datetime columns stored in milliseconds. *)
Definition in_milliseconds (df : DataFrame) : DataFrame :=
  {| index_name := index_name df;
     index := index df;
     data := data df;
     units := map (fun ku => (fst ku, unit_ms)) (units df) |}.

(** A candle table: the end times as the index, the ten kept columns, and
    the unit of the begin times. *)
Definition candle_frame (u : time_unit) (e b o h l c v qv tn tb tq : list value)
  : DataFrame :=
  {| index_name := Some "candle_end_time";
     index := e;
     data := [("candle_begin_time", b); ("open", o); ("high", h); ("low", l);
              ("close", c); ("volume", v); ("quote_volume", qv); ("trade_num", tn);
              ("taker_buy_base_asset_volume", tb);
              ("taker_buy_quote_asset_volume", tq)];
     units := [("candle_begin_time", u)] |}.

(** The table of [get_candle_with_pandas], spelled out: the duration [delta]
    of the interval, the begin times [ts] and the nine other columns as
    converted from the payload, all read in the order [argsort ts], and the
    end times [e] as the index. *)
Definition sorted_candle_table (argsort : list Z -> list nat)
    (convert : value -> result Z) (klines : list (list value)) (interval : value)
    (df : DataFrame) : Prop :=
  exists delta ts o h l c v qv tn tb tq e,
    convert interval = Ok delta /\
    mapM astype_int64 (raw_column 0 klines) = Ok (map PInt ts) /\
    Forall (fun t => in_ns_range t = true) ts /\
    mapM astype_float (raw_column 1 klines) = Ok o /\
    mapM astype_float (raw_column 2 klines) = Ok h /\
    mapM astype_float (raw_column 3 klines) = Ok l /\
    mapM astype_float (raw_column 4 klines) = Ok c /\
    mapM astype_float (raw_column 5 klines) = Ok v /\
    mapM astype_float (raw_column 7 klines) = Ok qv /\
    mapM astype_int64 (raw_column 8 klines) = Ok tn /\
    mapM astype_float (raw_column 9 klines) = Ok tb /\
    mapM astype_float (raw_column 10 klines) = Ok tq /\
    mapM (add_timedelta delta) (take (argsort ts) (map PTimestamp ts)) = Ok e /\
    df = candle_frame unit_ns e
           (take (argsort ts) (map PTimestamp ts))
           (take (argsort ts) o) (take (argsort ts) h) (take (argsort ts) l)
           (take (argsort ts) c) (take (argsort ts) v) (take (argsort ts) qv)
           (take (argsort ts) tn) (take (argsort ts) tb) (take (argsort ts) tq).

(** The table of [get_candle_with_polar], spelled out: the columns as the
    schema reads them from the payload, all read in the order [p] of the
    sort, handed over to pandas, and the end times [e] as the index. *)
Definition polar_candle_table (argsort : list Z -> list nat)
    (convert : value -> result Z) (klines : list (list value)) (interval : value)
    (df : DataFrame) : Prop :=
  exists delta b0 b o h l c v qv tn tb tq p e,
    convert interval = Ok delta /\
    mapM (pl_cast (Some Int64)) (raw_column 0 klines) = Ok b0 /\
    mapM pl_cast_datetime_ms b0 = Ok b /\
    mapM (pl_cast (Some Float64)) (raw_column 1 klines) = Ok o /\
    mapM (pl_cast (Some Float64)) (raw_column 2 klines) = Ok h /\
    mapM (pl_cast (Some Float64)) (raw_column 3 klines) = Ok l /\
    mapM (pl_cast (Some Float64)) (raw_column 4 klines) = Ok c /\
    mapM (pl_cast (Some Float64)) (raw_column 5 klines) = Ok v /\
    mapM (pl_cast (Some Float64)) (raw_column 7 klines) = Ok qv /\
    mapM (pl_cast (Some Int64)) (raw_column 8 klines) = Ok tn /\
    mapM (pl_cast (Some Float64)) (raw_column 9 klines) = Ok tb /\
    mapM (pl_cast (Some Float64)) (raw_column 10 klines) = Ok tq /\
    pl_indexer argsort b = Ok p /\
    mapM (add_timedelta_ms delta) (to_pandas_cells (Some Datetime_ms, take p b)) = Ok e /\
    df = candle_frame unit_ms e
           (to_pandas_cells (Some Datetime_ms, take p b))
           (to_pandas_cells (Some Float64, take p o))
           (to_pandas_cells (Some Float64, take p h))
           (to_pandas_cells (Some Float64, take p l))
           (to_pandas_cells (Some Float64, take p c))
           (to_pandas_cells (Some Float64, take p v))
           (to_pandas_cells (Some Float64, take p qv))
           (to_pandas_cells (Some Int64, take p tn))
           (to_pandas_cells (Some Float64, take p tb))
           (to_pandas_cells (Some Float64, take p tq)).

(** [g] is a filter entry of a type other than [filter_type]. *)
Definition is_other_filter (filter_type : string) (g : value) : bool :=
  match getitem g "filterType" with
  | Ok t => negb (eq_str t filter_type)
  | Err _ => false
  end.

(** The venue field that a variant reads the trading status from. *)
Definition status_field (type_ : string) : string :=
  if String.eqb type_ "coin_futures" then "contractStatus" else "status".

(** The venue value that a variant reads its minimum notional from. *)
Definition notional_source (type_ : string) (info : value) : result value :=
  filters <- getitem info "filters" ;;
  if String.eqb type_ "spot" then _get_from_filters filters "NOTIONAL" "minNotional"
  else _get_from_filters filters "MIN_NOTIONAL" "notional".

(** A filters list with two PRICE_FILTER entries after a LOT_SIZE entry. *)
Definition two_price_filters : value :=
  PList [filter_entry "LOT_SIZE" "stepSize" "0.001";
         filter_entry "PRICE_FILTER" "tickSize" "0.10";
         filter_entry "PRICE_FILTER" "tickSize" "0.50"].

(** A venue that is down: every call fails with a timeout, and is
    counted. *)
Definition failing_venue (X : Type) (c : call X) (n : nat) : result X * nat :=
  (Err (OtherError "timeout"), S n).

(** A funding entry that the extraction can read: a dict with a symbol text
    and with a rate that is a JSON scalar. *)
Definition is_json_scalar (v : value) : bool :=
  match v with
  | PNone | PBool _ | PInt _ | PFloat _ | PStr _ => true
  | _ => false
  end.

Definition funding_entry_ok (d : value) : bool :=
  match getitem d "symbol", getitem d "lastFundingRate" with
  | Ok (PStr _), Ok r => is_json_scalar r
  | _, _ => false
  end.

(** A listing whose second entry has no rate. *)
Definition listing_without_rate : list value :=
  [funding_entry "BTCUSDT" "0.0001"; PDict [("symbol", PStr "XYZUSDT")]].

(** A listing with rates of several kinds. *)
Definition mixed_listing : list value :=
  [funding_entry "BTCUSDT" "0.0001";
   PDict [("symbol", PStr "ETHUSDT"); ("lastFundingRate", PNone)];
   PDict [("symbol", PStr "XYZUSDT"); ("lastFundingRate", PInt 0)]].

(** An exchange-info listing whose middle entry has no PRICE_FILTER. *)
Definition listing_with_bad_entry : value :=
  PDict [("symbols", PList [usdt_info "BTCUSDT" "0.10";
                            usdt_info_no_price_filter;
                            usdt_info "ETHUSDT" "0.01"])].

(** An exchange-info listing of two different symbols. *)
Definition listing_of_two : value :=
  PDict [("symbols", PList [usdt_info "BTCUSDT" "0.50"; usdt_info "ETHUSDT" "0.01"])].

(** A venue that answers with the given payloads and counts the requests
    it receives. *)
Fixpoint venue_of (exg_info : value) (klines : list (list value)) (listing : value)
    (X : Type) (c : call X) (n : nat) : result X * nat :=
  match c in call T return result T * nat with
  | create_binance_market_api _ _ => (Ok (mkMarketApi 1), n)
  | aioreq_exchange_info _ => (Ok exg_info, S n)
  | aioreq_klines _ _ _ _ => (Ok klines, S n)
  | aioreq_premium_index _ => (Ok listing, S n)
  | async_retry_getter c' => venue_of exg_info klines listing _ c' n
  end.

(** The columns of a normalised candle table. *)
Definition candle_columns : list string :=
  ["candle_begin_time"; "open"; "high"; "low"; "close"; "volume"; "quote_volume";
   "trade_num"; "taker_buy_base_asset_volume"; "taker_buy_quote_asset_volume"].

(** A frame with the given columns, all as long as its index, which has [n]
    labels. *)
Definition frame_shape (cols : list string) (n : nat) (df : DataFrame) : Prop :=
  columns df = cols /\
  List.length (index df) = n /\
  Forall (fun kv => List.length (snd kv) = n) (data df).

(** Two one-hour candles in the order of their begin times. *)
Definition ordered_klines : list (list value) :=
  [raw_kline 0 "1.0"; raw_kline 3600000 "1.5"].

(** The ordered candles as [get_candle] returns them. *)
Definition ordered_table : DataFrame :=
  hourly_table [0; 3600000]
               [PFloat (FNum false 10 (-1)); PFloat (FNum false 15 (-1))]
               [PFloat (FNum false 7 0); PFloat (FNum false 7 0)].

(** The kind of a cell. *)
Inductive kind : Type := KTimestamp | KFloat | KInt | KOther.

Definition kind_of (v : value) : kind :=
  match v with
  | PTimestamp _ => KTimestamp
  | PFloat _ => KFloat
  | PInt _ => KInt
  | _ => KOther
  end.

(** The cells of each column of [df] are of the kind listed for it. *)
Definition column_kinds (df : DataFrame) (kinds : list kind) : Prop :=
  Forall2 (fun kv k => Forall (fun v => kind_of v = k) (snd kv)) (data df) kinds.

(** The kinds of the candle columns, with the kind of [trade_num] left
    open. *)
Definition candle_kinds (trade_num : kind) : list kind :=
  [KTimestamp; KFloat; KFloat; KFloat; KFloat; KFloat; KFloat; trade_num; KFloat; KFloat].

(** One candle without its last field. *)
Definition short_kline : list value :=
  [PInt 0; PStr "1.0"; PStr "2.0"; PStr "0.5"; PStr "1.0"; PStr "10";
   PInt 3599999; PStr "15.0"; PInt 7; PStr "4"; PStr "6.0"].

(** The candle has a begin time, and a trade count. *)
Definition has_begin_time (r : list value) : bool := negb (is_null (nth 0 r PNone)).

Definition has_trade_num (r : list value) : bool := negb (is_null (nth 8 r PNone)).

(** What the two sorting variants have in common when no candle lacks its
    begin time: the begin times [ts] and the float columns as converted from
    the payload, all read in the order [argsort ts], under the end times.
    The unit [u] of the begin times is left open, and so is the column [tn]
    of the trade counts, but that it holds integers when no candle lacks its
    count. *)
Definition sorted_rows (argsort : list Z -> list nat)
    (convert : value -> result Z) (klines : list (list value)) (interval : value)
    (df : DataFrame) : Prop :=
  exists delta ts o h l c v qv tn tb tq u,
    convert interval = Ok delta /\
    mapM astype_int64 (raw_column 0 klines) = Ok (map PInt ts) /\
    mapM astype_float (raw_column 1 klines) = Ok o /\
    mapM astype_float (raw_column 2 klines) = Ok h /\
    mapM astype_float (raw_column 3 klines) = Ok l /\
    mapM astype_float (raw_column 4 klines) = Ok c /\
    mapM astype_float (raw_column 5 klines) = Ok v /\
    mapM astype_float (raw_column 7 klines) = Ok qv /\
    List.length tn = List.length klines /\
    (forallb has_trade_num klines = true ->
     mapM astype_int64 (raw_column 8 klines) = Ok tn) /\
    mapM astype_float (raw_column 9 klines) = Ok tb /\
    mapM astype_float (raw_column 10 klines) = Ok tq /\
    df = candle_frame u
           (map (fun t => PTimestamp (t + delta)) (map (fun i => nth i ts 0) (argsort ts)))
           (take (argsort ts) (map PTimestamp ts))
           (take (argsort ts) o) (take (argsort ts) h) (take (argsort ts) l)
           (take (argsort ts) c) (take (argsort ts) v) (take (argsort ts) qv)
           (take (argsort ts) tn) (take (argsort ts) tb) (take (argsort ts) tq).

(** *** Venue candles *)











(** One raw candle with the given begin time and trade count, which may be
    missing. *)
Definition raw_kline_of (begin_time trade_num : value) : list value :=
  [begin_time; PStr "1.0"; PStr "2.0"; PStr "0.5"; PStr "1.0"; PStr "10";
   PInt 3599999; PStr "15.0"; trade_num; PStr "4"; PStr "6.0"; PStr "0"].

(** A payload whose second candle has no begin time. *)
Definition klines_without_begin_time : list (list value) :=
  [raw_kline_of (PInt 0) (PInt 7); raw_kline_of PNone (PInt 7)].

(** A payload whose second candle has no trade count. *)
Definition klines_without_trade_num : list (list value) :=
  [raw_kline_of (PInt 0) (PInt 7); raw_kline_of (PInt 3600000) PNone].

(** A candle of the year 2286, past the last nanosecond that 64 bits
    count. *)
Definition far_klines : list (list value) :=
  [raw_kline_of (PInt 10000000000000) (PInt 7)].


(** Two candles with the same begin time and different closing prices. *)
Definition tied_klines : list (list value) :=
  [raw_kline 0 "1.0"; raw_kline 0 "1.5"].

(** * Properties *)

(** ** The error monad *)

Lemma bind_Ok {A B : Type} (r : result A) (k : A -> result B) (b : B) :
  bind r k = Ok b -> exists a, r = Ok a /\ k a = Ok b.
Proof.
  destruct r as [a | e]; simpl; intros H.
  - exists a. split; [reflexivity | exact H].
  - discriminate H.
Qed.

(** Splits every successful [bind] among the hypotheses. *)
Ltac bind_inv :=
  repeat match goal with
    | H : bind _ _ = Ok _ |- _ =>
        let a := fresh "a" in
        let Ha := fresh "Ha" in
        apply bind_Ok in H; destruct H as [a [Ha H]]
    | H : Ok _ = Ok _ |- _ => injection H as H
    end.

(** ** Trading rules *)

Ltac type_map_cases H :=
  unfold TYPE_MAP in H; simpl in H;
  destruct H as [H | [H | [H | []]]]; injection H as <- <-.

(** C4: a parsed trading rule has the key [min_notional_value] exactly when
    the variant is spot or usdt_futures; the coin_futures parser never
    writes it. *)
Theorem min_notional_iff_variant (type_ : string) (parse : value -> result value)
    (info rule : value) :
  In (type_, parse) TYPE_MAP ->
  parse info = Ok rule ->
  (has_key rule "min_notional_value" = true <->
   type_ = "spot" \/ type_ = "usdt_futures").
Proof.
  intros Hin Hp. type_map_cases Hin.
  - unfold _parse_usdt_futures_syminfo in Hp. bind_inv. subst rule.
    simpl. split; intros _; [right|]; reflexivity.
  - unfold _parse_coin_futures_syminfo in Hp. bind_inv. subst rule.
    simpl. split; [discriminate | intros [H | H]; discriminate H].
  - unfold _parse_spot_syminfo in Hp. bind_inv. subst rule.
    simpl. split; intros _; [left|]; reflexivity.
Qed.

Lemma min_notional_iff_variant_witness :
  has_key btc_rule "min_notional_value" = true <->
  "usdt_futures" = "spot" \/ "usdt_futures" = "usdt_futures".
Proof.
  apply (min_notional_iff_variant "usdt_futures" _parse_usdt_futures_syminfo
           (usdt_info "BTCUSDT" "0.10")).
  - simpl. left. reflexivity.
  - vm_compute. reflexivity.
Defined.

(** Without an entry of the type looked up, the loop of [_get_from_filters]
    ends without a [return]: the call gives [None], unless an entry without
    a [filterType] key made it raise. *)
Lemma _get_from_filters_loop_none (fs : list value) (filter_type field_name : string) :
  existsb (is_filter_of_type filter_type) fs = false ->
  _get_from_filters_loop fs filter_type field_name = Ok PNone \/
  exists e, _get_from_filters_loop fs filter_type field_name = Err e.
Proof.
  induction fs as [| f fs IH]; simpl; intros H.
  - left. reflexivity.
  - apply orb_false_elim in H. destruct H as [Hf Hfs].
    unfold is_filter_of_type in Hf.
    destruct (getitem f "filterType") as [t | e]; simpl.
    + rewrite Hf. exact (IH Hfs).
    + right. exists e. reflexivity.
Qed.

Lemma lookup_of_lacking (info : value) (filter_type field_name : string) :
  lacks_filter info filter_type = true ->
  exists filters,
    getitem info "filters" = Ok filters /\
    exists e, (t <- _get_from_filters filters filter_type field_name ;; Decimal_new t)
              = Err e.
Proof.
  unfold lacks_filter. intros H.
  destruct (getitem info "filters") as [[| | | | | | | fs | |] | e]; try discriminate H.
  exists (PList fs). split; [reflexivity |].
  apply negb_true_iff in H.
  destruct (_get_from_filters_loop_none fs filter_type field_name H) as [Hn | [e Hn]];
    unfold _get_from_filters; simpl; rewrite Hn; simpl; eauto.
Qed.

(** Decides a chain of [bind]s whose failure is already known somewhere:
    every step before it either raises or goes on. *)
Ltac raise_or_go :=
  repeat match goal with
    | |- exists e, Err _ = Err e => eexists; reflexivity
    | H : ?r = Err _ |- context [bind ?r _] => rewrite H; simpl
    | |- context [bind ?r _] => destruct r; simpl
    end.

(** C5: when the filters list of a symbol-info record has no entry of a
    filter type that the variant looks up, the parser raises; it returns no
    rule with a defaulted or missing price tick or lot size. *)
Theorem missing_filter_fails (type_ : string) (parse : value -> result value)
    (info : value) (filter_type : string) :
  In (type_, parse) TYPE_MAP ->
  In filter_type (required_filters type_) ->
  lacks_filter info filter_type = true ->
  exists e, parse info = Err e.
Proof.
  intros Hin Hreq Hlack. type_map_cases Hin; simpl in Hreq.
  - unfold _parse_usdt_futures_syminfo.
    destruct Hreq as [<- | [<- | [<- | []]]].
    + destruct (lookup_of_lacking info _ "tickSize" Hlack) as [fl [Hf [e He]]].
      rewrite Hf; simpl. raise_or_go.
    + destruct (lookup_of_lacking info _ "stepSize" Hlack) as [fl [Hf [e He]]].
      rewrite Hf; simpl. raise_or_go.
    + destruct (lookup_of_lacking info _ "notional" Hlack) as [fl [Hf [e He]]].
      rewrite Hf; simpl. raise_or_go.
  - unfold _parse_coin_futures_syminfo.
    destruct Hreq as [<- | []].
    destruct (lookup_of_lacking info _ "tickSize" Hlack) as [fl [Hf [e He]]].
    rewrite Hf; simpl. raise_or_go.
  - unfold _parse_spot_syminfo.
    destruct Hreq as [<- | [<- | [<- | []]]].
    + destruct (lookup_of_lacking info _ "tickSize" Hlack) as [fl [Hf [e He]]].
      rewrite Hf; simpl. raise_or_go.
    + destruct (lookup_of_lacking info _ "stepSize" Hlack) as [fl [Hf [e He]]].
      rewrite Hf; simpl. raise_or_go.
    + destruct (lookup_of_lacking info _ "minNotional" Hlack) as [fl [Hf [e He]]].
      rewrite Hf; simpl. raise_or_go.
Qed.

Lemma missing_filter_fails_witness :
  exists e, _parse_usdt_futures_syminfo usdt_info_no_price_filter = Err e.
Proof.
  apply (missing_filter_fails "usdt_futures" _parse_usdt_futures_syminfo
           usdt_info_no_price_filter "PRICE_FILTER").
  - simpl. left. reflexivity.
  - simpl. left. reflexivity.
  - vm_compute. reflexivity.
Defined.

(** C3, as stated, fails: the parsers take the venue's numbers as they come.
    A USDT-margined record whose PRICE_FILTER has tickSize "0" is accepted,
    and its rule has a price tick of zero. *)
Lemma ticks_positive_refuted :
  ~ (forall (type_ : string) (parse : value -> result value) (info rule : value),
        In (type_, parse) TYPE_MAP ->
        parse info = Ok rule ->
        ticks_positive rule = true).
Proof.
  intros H.
  specialize (H "usdt_futures" _parse_usdt_futures_syminfo (usdt_info "BTCUSDT" "0")).
  assert (Hin : In ("usdt_futures", _parse_usdt_futures_syminfo) TYPE_MAP)
    by (simpl; left; reflexivity).
  assert (Hp : exists rule,
             _parse_usdt_futures_syminfo (usdt_info "BTCUSDT" "0") = Ok rule /\
             ticks_positive rule = false)
    by (eexists; split; vm_compute; reflexivity).
  destruct Hp as [rule [Hp Hneg]].
  specialize (H rule Hin Hp). rewrite Hneg in H. discriminate H.
Qed.

(** C3, amended: a parsed trading rule has a [price_tick] and a [lot_size];
    the price tick is the decimal value of the tickSize of the first
    PRICE_FILTER entry, the lot size that of the stepSize of the first
    LOT_SIZE entry (spot, usdt_futures) or of the contractSize field
    (coin_futures).  Both are above zero exactly when these venue values
    are. *)
Theorem ticks_are_venue_values (type_ : string) (parse : value -> result value)
    (info rule : value) :
  In (type_, parse) TYPE_MAP ->
  parse info = Ok rule ->
  exists (t l : value) (price_tick lot_size : Decimal),
    tick_source info = Ok t /\
    lot_source type_ info = Ok l /\
    Decimal_new t = Ok price_tick /\
    Decimal_new l = Ok lot_size /\
    getitem rule "price_tick" = Ok (PDecimal price_tick) /\
    getitem rule "lot_size" = Ok (PDecimal lot_size) /\
    ticks_positive rule = Decimal_gt0 price_tick && Decimal_gt0 lot_size.
Proof.
  intros Hin Hp. type_map_cases Hin.
  - unfold _parse_usdt_futures_syminfo in Hp. bind_inv. subst rule.
    unfold tick_source, lot_source. simpl.
    repeat match goal with H : _ = Ok _ |- _ => rewrite H; simpl end.
    do 4 eexists. repeat split; eassumption.
  - unfold _parse_coin_futures_syminfo in Hp. bind_inv. subst rule.
    unfold tick_source, lot_source. simpl.
    repeat match goal with H : _ = Ok _ |- _ => rewrite H; simpl end.
    do 4 eexists. repeat split; eassumption.
  - unfold _parse_spot_syminfo in Hp. bind_inv. subst rule.
    unfold tick_source, lot_source. simpl.
    repeat match goal with H : _ = Ok _ |- _ => rewrite H; simpl end.
    do 4 eexists. repeat split; eassumption.
Qed.

Lemma ticks_are_venue_values_witness :
  exists (t l : value) (price_tick lot_size : Decimal),
    tick_source (usdt_info "BTCUSDT" "0.10") = Ok t /\
    lot_source "usdt_futures" (usdt_info "BTCUSDT" "0.10") = Ok l /\
    Decimal_new t = Ok price_tick /\
    Decimal_new l = Ok lot_size /\
    getitem btc_rule "price_tick" = Ok (PDecimal price_tick) /\
    getitem btc_rule "lot_size" = Ok (PDecimal lot_size) /\
    ticks_positive btc_rule = Decimal_gt0 price_tick && Decimal_gt0 lot_size.
Proof.
  apply (ticks_are_venue_values "usdt_futures" _parse_usdt_futures_syminfo
           (usdt_info "BTCUSDT" "0.10")).
  - simpl. left. reflexivity.
  - vm_compute. reflexivity.
Defined.

(** ** Early failures of the facade *)

(** C6: on a fetcher bound to spot, [get_funding_rate] raises at once: the
    method is the raise itself, so whatever the collaborators would answer,
    the run ends with the error, their state untouched and no call made. *)
Theorem funding_rate_rejects_spot (self : BinanceFetcher) :
  trade_type self = PStr "spot" ->
  get_funding_rate self = Raise RuntimeError /\
  forall (S : Type) (h : handler S) (s : S),
    run h (get_funding_rate self) s = (Err RuntimeError, s, []).
Proof.
  intros Hspot. unfold get_funding_rate. rewrite Hspot. simpl.
  split; [reflexivity | intros S h s; reflexivity].
Qed.

Lemma funding_rate_rejects_spot_witness :
  get_funding_rate spot_fetcher = Raise RuntimeError /\
  forall (S : Type) (h : handler S) (s : S),
    run h (get_funding_rate spot_fetcher) s = (Err RuntimeError, s, []).
Proof.
  apply (funding_rate_rejects_spot spot_fetcher). reflexivity.
Defined.

Lemma TYPE_MAP_get_unsupported (type_ : value) :
  supported type_ = false ->
  TYPE_MAP_get type_ = Ok None \/ TYPE_MAP_get type_ = Err TypeError.
Proof.
  unfold supported, TYPE_MAP_get. intros H.
  destruct type_; simpl; auto.
  simpl in H. unfold TYPE_MAP. simpl.
  apply orb_false_elim in H. destruct H as [H Hspot].
  apply orb_false_elim in H. destruct H as [Husdt Hcoin].
  rewrite Husdt, Hcoin, Hspot. left. reflexivity.
Qed.

(** C8: constructing a fetcher with a venue type other than spot,
    usdt_futures and coin_futures ends in an error.  The only call made is
    the one that builds the market API object, before the type is checked;
    no request goes out through it. *)
Theorem init_rejects_unknown_type (type_ : value) (session : Session)
    (S : Type) (h : handler S) (s : S) :
  supported type_ = false ->
  exists (e : exn) (s' : S) (tr : list event),
    run h (__init__ type_ session) s = (Err e, s', tr) /\
    tr = [Event (create_binance_market_api type_ session)] /\
    existsb event_is_request tr = false.
Proof.
  intros Hun. unfold __init__. simpl.
  destruct (h MarketApi (create_binance_market_api type_ session) s) as [[api | e] s'].
  - destruct (TYPE_MAP_get_unsupported type_ Hun) as [Hg | Hg]; rewrite Hg; simpl;
      do 3 eexists; repeat split; reflexivity.
  - exists e, s'. eexists. repeat split; reflexivity.
Qed.

Lemma init_rejects_unknown_type_witness :
  exists (e : exn) (s' : nat) (tr : list event),
    run sample_venue (__init__ (PStr "margin") (mkSession 1)) 0%nat = (Err e, s', tr) /\
    tr = [Event (create_binance_market_api (PStr "margin") (mkSession 1))] /\
    existsb event_is_request tr = false.
Proof.
  apply (init_rejects_unknown_type (PStr "margin") (mkSession 1) nat sample_venue 0%nat).
  reflexivity.
Defined.

(** ** The symbol table of [get_exchange_info] *)

Lemma eq_str_true (v : value) (s : string) : eq_str v s = true <-> v = PStr s.
Proof.
  destruct v; simpl; split; intros H; try discriminate H.
  - apply String.eqb_eq in H. subst. reflexivity.
  - injection H as ->. apply String.eqb_refl.
Qed.

Lemma has_symbol_true (sym : string) (info : value) :
  has_symbol sym info = true <-> getitem info "symbol" = Ok (PStr sym).
Proof.
  unfold has_symbol. destruct (getitem info "symbol") as [k | e].
  - rewrite eq_str_true. split; [intros -> | intros H; injection H as ->]; reflexivity.
  - split; intros H; discriminate H.
Qed.

Lemma key_eqb_str_r (k : value) (s : string) : key_eqb k (PStr s) = eq_str k s.
Proof.
  destruct k as [| b | z | [neg c e | neg |] | t | [neg c e | neg | neg sg dg] | ms | l | items |];
    simpl; try reflexivity.
Qed.

Lemma key_eqb_str_l (k : value) (s : string) : key_eqb (PStr s) k = eq_str k s.
Proof.
  destruct k as [| b | z | [neg c e | neg |] | t | [neg c e | neg | neg sg dg] | ms | l | items |];
    simpl; try reflexivity.
  apply String.eqb_sym.
Qed.

(** Where the bindings of [dict_update] come from. *)
Lemma dict_update_In (d : pydict) (k v k0 v0 : value) :
  In (k0, v0) (dict_update d k v) ->
  In (k0, v0) d \/
  (v0 = v /\ (k0 = k \/ exists v', In (k0, v') d /\ key_eqb k0 k = true)).
Proof.
  induction d as [| [k' v'] d IH]; simpl.
  - intros [H | []]. injection H as <- <-. right. split; [reflexivity | left; reflexivity].
  - destruct (key_eqb k' k) eqn:Hk; simpl.
    + intros [H | H].
      * injection H as <- <-. right. split; [reflexivity |].
        right. exists v'. split; [left; reflexivity | exact Hk].
      * left. right. exact H.
    + intros [H | H].
      * left. left. exact H.
      * destruct (IH H) as [Hd | [-> [-> | [w [Hw Hkw]]]]].
        -- left. right. exact Hd.
        -- right. split; [reflexivity | left; reflexivity].
        -- right. split; [reflexivity |]. right. exists w. split; [right; exact Hw | exact Hkw].
Qed.

(** The rules under a string key after one assignment. *)
Lemma rules_for_dict_update (d : pydict) (k v : value) (sym : string) :
  rules_for sym (dict_update d k v) =
  if eq_str k sym then
    match rules_for sym d with
    | [] => [v]
    | _ :: rest => v :: rest
    end
  else rules_for sym d.
Proof.
  unfold rules_for. induction d as [| [k' v'] d IH]; simpl.
  - destruct (eq_str k sym); reflexivity.
  - destruct (key_eqb k' k) eqn:Hk; simpl.
    + destruct (eq_str k' sym) eqn:Hk'; simpl.
      * apply eq_str_true in Hk'. subst k'. rewrite key_eqb_str_l in Hk.
        rewrite Hk. reflexivity.
      * destruct (eq_str k sym) eqn:Hs; [| reflexivity].
        apply eq_str_true in Hs. subst k. rewrite key_eqb_str_r in Hk.
        rewrite Hk in Hk'. discriminate Hk'.
    + destruct (eq_str k' sym) eqn:Hk'; simpl.
      * apply eq_str_true in Hk'. subst k'. rewrite key_eqb_str_l in Hk.
        rewrite Hk in IH. rewrite Hk. rewrite IH. reflexivity.
      * exact IH.
Qed.

Section ExchangeInfoLoop.

Variable parse : value -> result value.

(** Every binding of the result has a key read from an entry and a value
    parsed from an entry that bears the key. *)
Lemma loop_bindings (all infos : list value) :
  incl infos all ->
  forall d d' : pydict,
    get_exchange_info_loop parse infos d = Ok d' ->
    (forall k v, In (k, v) d ->
       exists i1 i2, In i1 all /\ In i2 all /\ getitem i1 "symbol" = Ok k /\
                     bears_symbol k i2 /\ parse i2 = Ok v) ->
    forall k v, In (k, v) d' ->
       exists i1 i2, In i1 all /\ In i2 all /\ getitem i1 "symbol" = Ok k /\
                     bears_symbol k i2 /\ parse i2 = Ok v.
Proof.
  induction infos as [| info rest IH]; intros Hincl d d' Hloop Hd.
  - simpl in Hloop. injection Hloop as <-. exact Hd.
  - simpl in Hloop. bind_inv.
    unfold dict_setitem in Ha1. destruct (hashable a0); [| discriminate Ha1].
    injection Ha1 as <-.
    assert (Hinfo : In info all) by (apply Hincl; left; reflexivity).
    apply (IH (fun x Hx => Hincl x (or_intror Hx)) _ _ Hloop).
    intros k v Hin. apply dict_update_In in Hin.
    destruct Hin as [Hin | [-> [-> | [v' [Hin Hk]]]]].
    + exact (Hd k v Hin).
    + exists info, info. repeat split; try assumption. left. exact Ha0.
    + destruct (Hd k v' Hin) as [i1 [_ [Hi1 [_ [Hs _]]]]].
      exists i1, info. repeat split; try assumption.
      right. exists a0. split; assumption.
Qed.

(** Under a string symbol the loop keeps one rule, that of the last entry
    bearing the symbol. *)
Lemma loop_rules_for (sym : string) (infos : list value) :
  forall d d' : pydict,
    get_exchange_info_loop parse infos d = Ok d' ->
    (List.length (rules_for sym d) <= 1)%nat ->
    (List.length (rules_for sym d') <= 1)%nat /\
    ((forall i, In i infos -> has_symbol sym i = false) ->
     rules_for sym d' = rules_for sym d) /\
    (forall pre last post,
       infos = (pre ++ last :: post)%list ->
       has_symbol sym last = true ->
       (forall i, In i post -> has_symbol sym i = false) ->
       exists v, parse last = Ok v /\ rules_for sym d' = [v]).
Proof.
  induction infos as [| info rest IH]; intros d d' Hloop Hlen.
  - simpl in Hloop. injection Hloop as <-. split; [exact Hlen |].
    split; [reflexivity |].
    intros [| p pre] last post H; discriminate H.
  - simpl in Hloop. bind_inv.
    unfold dict_setitem in Ha1. destruct (hashable a0); [| discriminate Ha1].
    injection Ha1 as <-.
    assert (Hupd := rules_for_dict_update d a0 a sym).
    assert (Hlen' : (List.length (rules_for sym (dict_update d a0 a)) <= 1)%nat).
    { rewrite Hupd. destruct (eq_str a0 sym); [| exact Hlen].
      destruct (rules_for sym d) as [| x [| y r]]; simpl in *; lia. }
    destruct (IH _ _ Hloop Hlen') as [H1 [H2 H3]].
    split; [exact H1 |]. split.
    + intros Hno. rewrite H2 by (intros i Hi; apply Hno; right; exact Hi).
      rewrite Hupd.
      assert (Hi : has_symbol sym info = false) by (apply Hno; left; reflexivity).
      unfold has_symbol in Hi. rewrite Ha0 in Hi. rewrite Hi. reflexivity.
    + intros [| p pre] last post Heq Hlast Hpost; simpl in Heq;
        injection Heq as <- ->.
      * exists a. split; [exact Ha |].
        rewrite (H2 Hpost). rewrite Hupd.
        unfold has_symbol in Hlast. rewrite Ha0 in Hlast. rewrite Hlast.
        destruct (rules_for sym d) as [| x [| y r]]; simpl in *; try reflexivity; lia.
      * exact (H3 pre last post eq_refl Hlast Hpost).
Qed.

End ExchangeInfoLoop.

(** The last element of a list that passes a test. *)
Lemma last_occurrence {A : Type} (p : A -> bool) (l : list A) :
  (exists x, In x l /\ p x = true) ->
  exists pre last post,
    l = (pre ++ last :: post)%list /\ p last = true /\ forall x, In x post -> p x = false.
Proof.
  induction l as [| a l IH]; intros [x [Hin Hp]].
  - destruct Hin.
  - destruct (existsb p l) eqn:Hex.
    + apply existsb_exists in Hex. destruct (IH Hex) as [pre [last [post [-> [Hl Hpost]]]]].
      exists (a :: pre), last, post. split; [reflexivity | split; assumption].
    + exists [], a, l. split; [reflexivity |].
      assert (Hall : forall y, In y l -> p y = false).
      { intros y Hy. destruct (p y) eqn:Hpy; [| reflexivity].
        assert (existsb p l = true) by (apply existsb_exists; exists y; split; assumption).
        congruence. }
      split; [| exact Hall].
      destruct Hin as [-> | Hin]; [exact Hp |].
      rewrite (Hall x Hin) in Hp. discriminate Hp.
Qed.

(** C10: the mapping that [get_exchange_info] returns is built from the
    listing of the payload that the retrying request gave.  Each key is the
    symbol of an entry, and its value is the parse of an entry that bears
    the key.  For a symbol string that one or several entries have, the
    mapping holds one rule, the parse of the last of them. *)
Theorem exchange_info_last_entry_wins (S : Type) (h : handler S) (s s' : S)
    (self : BinanceFetcher) (results : pydict) (tr : list event) :
  run h (get_exchange_info self) s = (Ok results, s', tr) ->
  exists (exg_info : value) (infos : list value),
    h value (async_retry_getter (aioreq_exchange_info (market_api self))) s
    = (Ok exg_info, s') /\
    listing_of exg_info = Ok infos /\
    (forall k v, In (k, v) results ->
       exists i1 i2, In i1 infos /\ In i2 infos /\ getitem i1 "symbol" = Ok k /\
                     bears_symbol k i2 /\ syminfo_parse_func self i2 = Ok v) /\
    (forall sym,
       (exists i, In i infos /\ getitem i "symbol" = Ok (PStr sym)) ->
       exists pre last post v,
         infos = (pre ++ last :: post)%list /\
         getitem last "symbol" = Ok (PStr sym) /\
         (forall i, In i post -> getitem i "symbol" <> Ok (PStr sym)) /\
         syminfo_parse_func self last = Ok v /\
         rules_for sym results = [v]).
Proof.
  unfold get_exchange_info. simpl. intros Hrun.
  destruct (h value (async_retry_getter (aioreq_exchange_info (market_api self))) s)
    as [[exg_info | e] s1]; [| discriminate Hrun].
  destruct (exchange_info_rules (syminfo_parse_func self) exg_info) as [d | e] eqn:Hrules;
    simpl in Hrun; [| discriminate Hrun].
  injection Hrun as -> -> _.
  unfold exchange_info_rules in Hrules. bind_inv.
  exists exg_info, a0. split; [reflexivity |].
  split; [unfold listing_of; rewrite Ha; simpl; exact Ha0 |].
  split.
  - apply (loop_bindings (syminfo_parse_func self) a0 a0 (incl_refl a0) [] results Hrules).
    intros k v [].
  - intros sym [i [Hin Hsym]].
    destruct (last_occurrence (has_symbol sym) a0) as [pre [last [post [Heq [Hl Hpost]]]]].
    { exists i. split; [exact Hin | apply has_symbol_true; exact Hsym]. }
    destruct (loop_rules_for (syminfo_parse_func self) sym a0 [] results Hrules)
      as [_ [_ H3]]; [simpl; lia |].
    destruct (H3 pre last post Heq Hl Hpost) as [v [Hv Hr]].
    exists pre, last, post, v. repeat split; try assumption.
    + apply has_symbol_true. exact Hl.
    + intros j Hj Hc. apply has_symbol_true in Hc. rewrite (Hpost j Hj) in Hc.
      discriminate Hc.
Qed.

Lemma exchange_info_last_entry_wins_witness :
  exists (exg_info : value) (infos : list value),
    sample_venue value (async_retry_getter (aioreq_exchange_info (market_api usdt_fetcher)))
                 0%nat
    = (Ok exg_info, 1%nat) /\
    listing_of exg_info = Ok infos /\
    (forall k v, In (k, v) sample_rules ->
       exists i1 i2, In i1 infos /\ In i2 infos /\ getitem i1 "symbol" = Ok k /\
                     bears_symbol k i2 /\ syminfo_parse_func usdt_fetcher i2 = Ok v) /\
    (forall sym,
       (exists i, In i infos /\ getitem i "symbol" = Ok (PStr sym)) ->
       exists pre last post v,
         infos = (pre ++ last :: post)%list /\
         getitem last "symbol" = Ok (PStr sym) /\
         (forall i, In i post -> getitem i "symbol" <> Ok (PStr sym)) /\
         syminfo_parse_func usdt_fetcher last = Ok v /\
         rules_for sym sample_rules = [v]).
Proof.
  apply (exchange_info_last_entry_wins nat sample_venue 0%nat 1%nat usdt_fetcher sample_rules
           [Event (async_retry_getter (aioreq_exchange_info (mkMarketApi 1)))]).
  vm_compute. reflexivity.
Defined.

(** ** Funding rates *)




(** ** Candle tables *)

Lemma mapM_Ok_Forall2 {A B : Type} (f : A -> result B) (l : list A) (l' : list B) :
  mapM f l = Ok l' <-> Forall2 (fun x y => f x = Ok y) l l'.
Proof.
  split.
  - revert l'. induction l as [| x l IH]; simpl; intros l' H.
    + injection H as <-. constructor.
    + bind_inv. subst l'. constructor; [assumption | apply IH; assumption].
  - induction 1 as [| x y l l' Hxy _ IH]; simpl.
    + reflexivity.
    + rewrite Hxy. simpl. rewrite IH. reflexivity.
Qed.

(** The cells of a column that [to_datetime] accepted are timestamps that fit
    pandas' nanosecond count. *)
Lemma mapM_to_datetime_ms (c c' : list value) :
  mapM to_datetime_ms c = Ok c' ->
  exists ts, c = map PInt ts /\ c' = map PTimestamp ts /\
             Forall (fun t => in_ns_range t = true) ts.
Proof.
  revert c'. induction c as [| v c IH]; simpl; intros c' H.
  - injection H as <-. exists []. repeat split; constructor.
  - bind_inv. subst c'. destruct (IH _ Ha0) as [ts [-> [-> Hts]]].
    destruct v; simpl in Ha; try discriminate Ha.
    destruct (in_ns_range z) eqn:Hz; [| discriminate Ha]. injection Ha as <-.
    exists (z :: ts). repeat split. constructor; assumption.
Qed.

(** Adding a duration to a datetime column adds it to every cell. *)
Lemma mapM_add_timedelta (delta : Z) (ts : list Z) (e : list value) :
  mapM (add_timedelta delta) (map PTimestamp ts) = Ok e ->
  e = map (fun t => PTimestamp (t + delta)) ts /\
  Forall (fun t => in_ns_range (t + delta) = true) ts.
Proof.
  revert e. induction ts as [| t ts IH]; simpl; intros e H.
  - injection H as <-. split; [reflexivity | constructor].
  - bind_inv. subst e. destruct (IH _ Ha0) as [-> Hts].
    destruct (in_ns_range (t + delta)) eqn:Ht; [| discriminate Ha]. injection Ha as <-.
    split; [reflexivity | constructor; assumption].
Qed.

(** Runs the frame operations of a successful normalisation, one step at a
    time and the earliest first, so that every frame is known before it is
    used. *)
Ltac frame_step :=
  match reverse goal with
  | H : Ok _ = Ok _ |- _ => injection H as H; subst
  | H : bind _ _ = Ok _ |- _ =>
      let a := fresh "a" in
      let Ha := fresh "Ha" in
      apply bind_Ok in H; destruct H as [a [Ha H]]
  end.

Ltac run_frame :=
  repeat (unfold astype, add_candle_end_time, set_index, sort_values, getcol, setcol,
            setcol_datetime in *;
          simpl in *; frame_step).

(** The table of [get_candle_with_original_pandas]: the ten kept columns,
    converted, in the order of the rows received, under the end times. *)
Lemma original_pandas_table (convert : value -> result Z) (klines : list (list value))
    (interval : value) (df : DataFrame) :
  get_candle_with_original_pandas convert klines interval = Ok df ->
  exists delta ts o h l c v qv tn tb tq,
    convert interval = Ok delta /\
    mapM astype_int64 (raw_column 0 klines) = Ok (map PInt ts) /\
    Forall (fun t => in_ns_range t = true) ts /\
    mapM astype_float (raw_column 1 klines) = Ok o /\
    mapM astype_float (raw_column 2 klines) = Ok h /\
    mapM astype_float (raw_column 3 klines) = Ok l /\
    mapM astype_float (raw_column 4 klines) = Ok c /\
    mapM astype_float (raw_column 5 klines) = Ok v /\
    mapM astype_float (raw_column 7 klines) = Ok qv /\
    mapM astype_float (raw_column 8 klines) = Ok tn /\
    mapM astype_float (raw_column 9 klines) = Ok tb /\
    mapM astype_float (raw_column 10 klines) = Ok tq /\
    df = candle_frame unit_ns (map (fun t => PTimestamp (t + delta)) ts)
           (map PTimestamp ts) o h l c v qv tn tb tq.
Proof.
  intros H. unfold get_candle_with_original_pandas, pd_DataFrame in H.
  match type of H with
  | bind (if ?b then _ else _) _ = _ => destruct b; [discriminate H |]
  end.
  run_frame.
  match goal with
  | Hd : mapM to_datetime_ms _ = Ok _ |- _ =>
      apply mapM_to_datetime_ms in Hd; destruct Hd as [ts [-> [-> Hts]]]
  end.
  match goal with
  | Hd : mapM (add_timedelta _) _ = Ok _ |- _ =>
      apply mapM_add_timedelta in Hd; destruct Hd as [-> _]
  end.
  unfold raw_column.
  do 11 eexists. repeat split; eassumption.
Qed.

(** C2: in the table that [get_candle] returns, the end time of every row is
    its begin time plus the duration that the interval collaborator gives
    for the tag, and the end times are the index of the table, named
    [candle_end_time]. *)
Theorem candle_end_time_is_begin_plus_duration
    (convert : value -> result Z) (self : BinanceFetcher) (symbol interval : value)
    (kwargs : list (string * value)) (delta : Z)
    (S : Type) (h : handler S) (s s' : S) (df : DataFrame) (tr : list event) :
  convert interval = Ok delta ->
  run h (get_candle convert self symbol interval kwargs) s = (Ok df, s', tr) ->
  index_name df = Some "candle_end_time" /\
  exists begins : list Z,
    getcol "candle_begin_time" df = Ok (map PTimestamp begins) /\
    index df = map (fun b => PTimestamp (b + delta)) begins.
Proof.
  intros Hdelta Hrun. unfold get_candle in Hrun. simpl in Hrun.
  destruct (h _ _ s) as [[klines | e] s1]; [| discriminate Hrun].
  destruct (get_candle_with_original_pandas convert klines interval) as [df' | e] eqn:Hn;
    simpl in Hrun; [| discriminate Hrun].
  injection Hrun as -> _ _.
  apply original_pandas_table in Hn.
  destruct Hn as (d & ts & o & hi & l & c & v & qv & tn & tb & tq & Hd & _ & _ & _ & _ & _ &
                  _ & _ & _ & _ & _ & _ & ->).
  rewrite Hdelta in Hd. injection Hd as <-.
  split; [reflexivity |]. exists ts. split; reflexivity.
Qed.

Lemma candle_end_time_is_begin_plus_duration_witness :
  index_name reversed_table = Some "candle_end_time" /\
  exists begins : list Z,
    getcol "candle_begin_time" reversed_table = Ok (map PTimestamp begins) /\
    index reversed_table = map (fun b => PTimestamp (b + 3600000)) begins.
Proof.
  apply (candle_end_time_is_begin_plus_duration duration_of usdt_fetcher
           (PStr "BTCUSDT") (PStr "1h") [] 3600000 nat sample_venue 0%nat 1%nat
           reversed_table
           [Event (async_retry_getter
                     (aioreq_klines (mkMarketApi 1) (PStr "BTCUSDT") (PStr "1h") []))]).
  - reflexivity.
  - vm_compute. reflexivity.
Defined.

(** C1 does not hold of the code: [get_candle] normalises with
    [get_candle_with_original_pandas], which has no sorting step.  For the two
    one-hour candles received with begin times 3_600_000 and 0, the table
    has them in that order, with end times 7_200_000 and 3_600_000; the
    begin times are not in non-decreasing order. *)
Theorem get_candle_keeps_received_order :
  run sample_venue
      (get_candle duration_of usdt_fetcher (PStr "BTCUSDT") (PStr "1h") []) 0%nat
  = (Ok reversed_table, 1%nat,
     [Event (async_retry_getter
               (aioreq_klines (mkMarketApi 1) (PStr "BTCUSDT") (PStr "1h") []))]) /\
  getcol "candle_begin_time" reversed_table = Ok [PTimestamp 3600000; PTimestamp 0] /\
  index reversed_table = [PTimestamp 7200000; PTimestamp 3600000] /\
  ~ Sorted Z.le [3600000; 0].
Proof.
  split; [vm_compute; reflexivity |].
  split; [reflexivity |]. split; [reflexivity |].
  intros H. inversion H as [| x l _ Hhd]; subst.
  inversion Hhd as [| y l' Hle]; subst. lia.
Qed.

(** The sibling variants do sort: on the same candles both give the rows
    with begin times 0 and 3_600_000, in that order. *)
Example sorting_variants_on_reversed_klines :
  get_candle_with_pandas stable_argsort duration_of reversed_klines (PStr "1h")
  = Ok sorted_table /\
  get_candle_with_polar reversing_argsort duration_of reversed_klines (PStr "1h")
  = Ok (in_milliseconds sorted_table).
Proof. split; vm_compute; reflexivity. Qed.

(** ** Sorting by position *)

Lemma map_nth_seq_all {A : Type} (l : list A) (d : A) :
  map (fun i => nth i l d) (seq 0 (List.length l)) = l.
Proof.
  induction l as [| x l IH]; simpl.
  - reflexivity.
  - f_equal. rewrite <- seq_shift, map_map. simpl. exact IH.
Qed.

(** Two strictly increasing lists with the same elements are the same. *)
Lemma strictly_sorted_unique (l1 l2 : list Z) :
  StronglySorted Z.lt l1 -> StronglySorted Z.lt l2 ->
  (forall x, In x l1 <-> In x l2) ->
  l1 = l2.
Proof.
  intros H1. revert l2. induction H1 as [| a l1 H1 IH Ha]; intros l2 H2 Hsame.
  - destruct l2 as [| b l2]; [reflexivity |].
    exfalso. apply (proj2 (Hsame b)). left. reflexivity.
  - destruct H2 as [| b l2 H2 Hb].
    + exfalso. apply (proj1 (Hsame a)). left. reflexivity.
    + rewrite Forall_forall in Ha, Hb.
      assert (Hab : a = b).
      { destruct (proj1 (Hsame a) (or_introl eq_refl)) as [Heq | Hin]; [auto |].
        destruct (proj2 (Hsame b) (or_introl eq_refl)) as [Heq | Hin']; [auto |].
        specialize (Hb a Hin). specialize (Ha b Hin'). lia. }
      subst b. f_equal. apply IH; [exact H2 |].
      intros x. split; intros Hx.
      * destruct (proj1 (Hsame x) (or_intror Hx)) as [Heq | Hin]; [| exact Hin].
        specialize (Ha x Hx). lia.
      * destruct (proj2 (Hsame x) (or_intror Hx)) as [Heq | Hin]; [| exact Hin].
        specialize (Hb x Hx). lia.
Qed.

Lemma sorted_nodup_strict (l : list Z) :
  Sorted Z.le l -> NoDup l -> StronglySorted Z.lt l.
Proof.
  intros Hs Hnd. apply Sorted_StronglySorted in Hs; [| intros x y z; lia].
  induction Hs as [| a l Hs IH Ha]; [constructor |].
  inversion Hnd as [| x l' Hnotin Hnd']; subst.
  constructor; [exact (IH Hnd') |].
  rewrite Forall_forall in *. intros x Hx. specialize (Ha x Hx).
  assert (a <> x) by (intros ->; exact (Hnotin Hx)). lia.
Qed.

Lemma map_eq_injective_on {A B : Type} (f : A -> B) (l1 l2 : list A) :
  (forall x y, In x l1 -> In y l2 -> f x = f y -> x = y) ->
  map f l1 = map f l2 -> l1 = l2.
Proof.
  revert l2. induction l1 as [| a l1 IH]; intros [| b l2] Hinj Heq;
    simpl in Heq; try discriminate Heq; [reflexivity |].
  injection Heq as Hab Heq. f_equal.
  - apply Hinj; [left; reflexivity | left; reflexivity | exact Hab].
  - apply IH; [| exact Heq]. intros x y Hx Hy. apply Hinj; right; assumption.
Qed.


Lemma insert_by_key_perm (strict : bool) (keys : list Z) (i : nat) (l : list nat) :
  Permutation (insert_by_key strict keys i l) (i :: l).
Proof.
  induction l as [| j l IH]; simpl.
  - apply Permutation_refl.
  - destruct (if strict then nth i keys 0 <? nth j keys 0
              else nth i keys 0 <=? nth j keys 0).
    + apply Permutation_refl.
    + apply Permutation_trans with (j :: i :: l).
      * apply perm_skip. exact IH.
      * apply perm_swap.
Qed.

Lemma insert_by_key_sorted (strict : bool) (keys : list Z) (i : nat) (l : list nat) :
  Sorted Z.le (map (fun j => nth j keys 0) l) ->
  Sorted Z.le (map (fun j => nth j keys 0) (insert_by_key strict keys i l)).
Proof.
  induction l as [| j l IH]; simpl; intros Hs.
  - repeat constructor.
  - destruct (if strict then nth i keys 0 <? nth j keys 0
              else nth i keys 0 <=? nth j keys 0) eqn:Hij; simpl.
    + constructor; [exact Hs |]. constructor.
      destruct strict; [apply Z.ltb_lt in Hij | apply Z.leb_le in Hij]; lia.
    + assert (Hji : nth j keys 0 <= nth i keys 0)
        by (destruct strict; [apply Z.ltb_ge in Hij | apply Z.leb_gt in Hij]; lia).
      inversion Hs as [| x m Hm Hhd]; subst.
      constructor; [exact (IH Hm) |].
      destruct l as [| k l]; simpl.
      * constructor. exact Hji.
      * destruct (if strict then nth i keys 0 <? nth k keys 0
                  else nth i keys 0 <=? nth k keys 0); simpl.
        -- constructor. exact Hji.
        -- inversion Hhd; subst. constructor. assumption.
Qed.

Lemma insertion_argsort_spec (strict : bool) :
  argsort_spec (fun keys =>
                  fold_right (insert_by_key strict keys) [] (seq 0 (List.length keys))).
Proof.
  intros keys.
  generalize (seq 0 (List.length keys)) as l.
  induction l as [| i l [IHp IHs]]; simpl.
  - split; constructor.
  - split.
    + apply Permutation_trans with (i :: fold_right (insert_by_key strict keys) [] l).
      * apply insert_by_key_perm.
      * apply perm_skip. exact IHp.
    + apply insert_by_key_sorted. exact IHs.
Qed.

(** The stable sort by insertion is a sort. *)
Lemma stable_argsort_spec : argsort_spec stable_argsort.
Proof. exact (insertion_argsort_spec false). Qed.

(** So is the one that reverses equal keys. *)
Lemma reversing_argsort_spec : argsort_spec reversing_argsort.
Proof. exact (insertion_argsort_spec true). Qed.

(** ** The sorting variants *)

Lemma mapM_sort_key_timestamps (ts : list Z) :
  mapM sort_key (map PTimestamp ts) = Ok ts.
Proof.
  induction ts as [| t ts IH]; simpl; [reflexivity |]. rewrite IH. reflexivity.
Qed.

Lemma mapM_sort_key_ints (ts : list Z) : mapM sort_key (map PInt ts) = Ok ts.
Proof.
  induction ts as [| t ts IH]; simpl; [reflexivity |]. rewrite IH. reflexivity.
Qed.

(** A table of [get_candle_with_pandas] is the table spelled out. *)
Lemma pandas_table (argsort : list Z -> list nat) (convert : value -> result Z)
    (klines : list (list value)) (interval : value) (df : DataFrame) :
  get_candle_with_pandas argsort convert klines interval = Ok df ->
  sorted_candle_table argsort convert klines interval df.
Proof.
  intros H. unfold get_candle_with_pandas, pd_DataFrame in H.
  match type of H with
  | bind (if ?b then _ else _) _ = _ => destruct b; [discriminate H |]
  end.
  run_frame.
  match goal with
  | Hd : mapM to_datetime_ms _ = Ok _ |- _ =>
      apply mapM_to_datetime_ms in Hd; destruct Hd as [ts [-> [-> Hts]]]
  end.
  match goal with
  | Hk : mapM sort_key _ = Ok _ |- _ =>
      rewrite mapM_sort_key_timestamps in Hk; injection Hk as <-
  end.
  unfold sorted_candle_table, raw_column.
  do 12 eexists. repeat split; eassumption.
Qed.

Lemma take_map_in_range {A B : Type} (f : A -> B) (l : list A) (p : list nat) (d : A) (d' : B) :
  Forall (fun i => (i < List.length l)%nat) p ->
  map (fun i => nth i (map f l) d') p = map f (map (fun i => nth i l d) p).
Proof.
  induction 1 as [| i p Hi _ IH]; simpl; [reflexivity |].
  rewrite IH. f_equal.
  rewrite (nth_indep (map f l) d' (f d)) by (rewrite length_map; exact Hi).
  apply map_nth.
Qed.

Lemma argsort_in_range (argsort : list Z -> list nat) (keys : list Z) :
  argsort_spec argsort ->
  Forall (fun i => (i < List.length keys)%nat) (argsort keys).
Proof.
  intros Hspec. destruct (Hspec keys) as [Hp _].
  apply Forall_forall. intros i Hi.
  apply (Permutation_in _ Hp) in Hi. apply in_seq in Hi. lia.
Qed.

(** What [get_candle] lacks: with any sort, the rows of
    [get_candle_with_pandas] come out with begin times that never
    decrease. *)
Lemma pandas_variant_sorted (argsort : list Z -> list nat) (convert : value -> result Z)
    (klines : list (list value)) (interval : value) (df : DataFrame) :
  argsort_spec argsort ->
  get_candle_with_pandas argsort convert klines interval = Ok df ->
  exists begins : list Z,
    getcol "candle_begin_time" df = Ok (map PTimestamp begins) /\
    Sorted Z.le begins.
Proof.
  intros Hspec H. apply pandas_table in H. unfold sorted_candle_table in H.
  destruct H as (d & ts & o & hi & l & c & v & qv & tn & tb & tq & e & _ & _ & _ & _ & _ &
                 _ & _ & _ & _ & _ & _ & _ & _ & ->).
  exists (map (fun i => nth i ts 0) (argsort ts)). split.
  - unfold getcol, take. simpl. f_equal.
    apply take_map_in_range. apply argsort_in_range. exact Hspec.
  - exact (proj2 (Hspec ts)).
Qed.

(** ** Lists, conversions and kinds *)

Lemma mapM_results {A B : Type} (f : A -> result B) (P : B -> Prop) (l : list A)
    (l' : list B) :
  (forall x y, f x = Ok y -> P y) ->
  mapM f l = Ok l' -> Forall P l'.
Proof.
  intros Hf H. apply mapM_Ok_Forall2 in H.
  induction H; constructor; eauto.
Qed.

Lemma mapM_ext_in {A B : Type} (f g : A -> result B) (l : list A) :
  (forall x, In x l -> f x = g x) -> mapM f l = mapM g l.
Proof.
  induction l as [| a l IH]; simpl; intros H; [reflexivity |].
  rewrite (H a) by (left; reflexivity).
  rewrite IH by (intros x Hx; apply H; right; exact Hx). reflexivity.
Qed.


Lemma mapM_pure {A B : Type} (g : A -> B) (l : list A) :
  mapM (fun x => Ok (g x)) l = Ok (map g l).
Proof.
  induction l as [| a l IH]; simpl; [reflexivity |]. rewrite IH. reflexivity.
Qed.


Lemma mapM_same_length {A B : Type} (f : A -> result B) (l : list A) (l' : list B) :
  mapM f l = Ok l' -> List.length l' = List.length l.
Proof.
  intros H. apply mapM_Ok_Forall2 in H. symmetry. exact (Forall2_length H).
Qed.

Lemma map_fixed {A : Type} (f : A -> A) (l : list A) :
  Forall (fun x => f x = x) l -> map f l = l.
Proof.
  induction 1 as [| x l Hx _ IH]; simpl; [reflexivity |]. rewrite Hx, IH. reflexivity.
Qed.

Lemma filter_all {A : Type} (f : A -> bool) (l : list A) :
  (forall x, In x l -> f x = true) -> filter f l = l.
Proof.
  induction l as [| a l IH]; simpl; intros H; [reflexivity |].
  rewrite (H a) by (left; reflexivity). f_equal.
  apply IH. intros x Hx. apply H. right. exact Hx.
Qed.

Lemma filter_none {A : Type} (f : A -> bool) (l : list A) :
  (forall x, In x l -> f x = false) -> filter f l = [].
Proof.
  induction l as [| a l IH]; simpl; intros H; [reflexivity |].
  rewrite (H a) by (left; reflexivity).
  apply IH. intros x Hx. apply H. right. exact Hx.
Qed.

Lemma filter_partition_length {A : Type} (f : A -> bool) (l : list A) :
  (List.length (filter f l) + List.length (filter (fun x => negb (f x)) l))%nat
  = List.length l.
Proof.
  induction l as [| a l IH]; simpl; [reflexivity |].
  destruct (f a); simpl; lia.
Qed.

Lemma raw_column_length (j : nat) (klines : list (list value)) :
  List.length (raw_column j klines) = List.length klines.
Proof. unfold raw_column. apply length_map. Qed.

Lemma converted_length (f : value -> result value) (j : nat) (klines : list (list value))
    (c : list value) :
  mapM f (raw_column j klines) = Ok c -> List.length c = List.length klines.
Proof.
  intros H. rewrite (mapM_same_length _ _ _ H). apply raw_column_length.
Qed.

Lemma column_cells (P : value -> Prop) (j : nat) (klines : list (list value)) :
  Forall (fun r => P (nth j r PNone)) klines -> Forall P (raw_column j klines).
Proof.
  intros H. unfold raw_column. apply Forall_forall. intros v Hv.
  apply in_map_iff in Hv. destruct Hv as [r [<- Hr]].
  rewrite Forall_forall in H. exact (H r Hr).
Qed.

Lemma take_length (p : list nat) (l : list value) : List.length (take p l) = List.length p.
Proof. unfold take. apply length_map. Qed.

Lemma take_Forall (P : value -> Prop) (p : list nat) (l : list value) :
  Forall (fun i => (i < List.length l)%nat) p ->
  Forall P l -> Forall P (take p l).
Proof.
  intros Hp Hl. unfold take. rewrite Forall_forall in *. intros v Hv.
  apply in_map_iff in Hv. destruct Hv as [i [<- Hi]].
  apply Hl. apply nth_In. exact (Hp i Hi).
Qed.


Lemma take_timestamps (p : list nat) (ts : list Z) :
  Forall (fun i => (i < List.length ts)%nat) p ->
  take p (map PTimestamp ts) = map PTimestamp (map (fun i => nth i ts 0) p).
Proof. intros Hp. unfold take. apply take_map_in_range. exact Hp. Qed.


Lemma argsort_length (argsort : list Z -> list nat) (keys : list Z) :
  argsort_spec argsort -> List.length (argsort keys) = List.length keys.
Proof.
  intros H. rewrite (Permutation_length (proj1 (H keys))). apply length_seq.
Qed.

Lemma keys_in_sorted_order (argsort : list Z -> list nat) (ts : list Z) :
  argsort_spec argsort ->
  Permutation (map (fun i => nth i ts 0) (argsort ts)) ts.
Proof.
  intros Hspec.
  apply Permutation_trans with (map (fun i => nth i ts 0) (seq 0 (List.length ts))).
  - apply Permutation_map. exact (proj1 (Hspec ts)).
  - rewrite map_nth_seq_all. apply Permutation_refl.
Qed.

Lemma astype_float_kind (v w : value) : astype_float v = Ok w -> kind_of w = KFloat.
Proof.
  destruct v as [| b | z | f | s | [neg c e | neg | neg [|] dg] | ms | l | items |];
    simpl; try discriminate; try (intros H; injection H as <-; reflexivity).
  destruct (float_of_string s); [| discriminate].
  intros H. injection H as <-. reflexivity.
Qed.

Lemma to_int64_kind (z : Z) (w : value) : to_int64 z = Ok w -> kind_of w = KInt.
Proof.
  unfold to_int64. destruct (in_int64 z); [| discriminate].
  intros H. injection H as <-. reflexivity.
Qed.

Lemma astype_int64_kind (v w : value) : astype_int64 v = Ok w -> kind_of w = KInt.
Proof.
  destruct v as [| b | z | [neg c e | neg |] | s | [neg c e | neg | neg sg dg] | ms | l | items |];
    simpl; try discriminate; try apply to_int64_kind.
  - intros H. injection H as <-. reflexivity.
  - destruct (int_of_string s); [apply to_int64_kind | discriminate].
Qed.

Lemma timestamps_kind (ts : list Z) :
  Forall (fun v => kind_of v = KTimestamp) (map PTimestamp ts).
Proof.
  apply Forall_forall. intros v Hv. apply in_map_iff in Hv.
  destruct Hv as [t [<- _]]. reflexivity.
Qed.

Lemma ints_of_kind (l : list value) :
  Forall (fun w => kind_of w = KInt) l -> exists zs, l = map PInt zs.
Proof.
  induction 1 as [| w l Hw _ [zs ->]].
  - exists []. reflexivity.
  - destruct w; try discriminate Hw. exists (z :: zs). reflexivity.
Qed.

Lemma astype_int64_not_null (v w : value) : astype_int64 v = Ok w -> is_null v = false.
Proof. destruct v; simpl; intros H; try discriminate H; reflexivity. Qed.





Lemma mapM_add_timedelta_ms (delta : Z) (ts : list Z) (e : list value) :
  mapM (add_timedelta_ms delta) (map PTimestamp ts) = Ok e ->
  e = map (fun t => PTimestamp (t + delta)) ts.
Proof.
  intros H. apply mapM_Ok_Forall2 in H.
  revert e H. induction ts as [| t ts IH]; simpl; intros e H; inversion H; subst.
  - reflexivity.
  - simpl. rewrite <- (IH _ H4). f_equal.
    simpl in H2. destruct (in_us_range t && in_us_range (t + delta)); [| discriminate H2].
    injection H2 as <-. reflexivity.
Qed.



Lemma list_max_constant {A : Type} (n : nat) (r : list A) (rows : list (list A)) :
  Forall (fun x => List.length x = n) (r :: rows) ->
  list_max (map (@List.length A) (r :: rows)) = n.
Proof.
  revert r. induction rows as [| r' rows IH]; intros r H.
  - inversion H; subst. simpl. lia.
  - inversion H as [| x l Hr Hrest]; subst.
    change (Nat.max (List.length r) (list_max (map (@List.length A) (r' :: rows)))
            = List.length r).
    rewrite (IH r' Hrest). inversion Hrest; subst. lia.
Qed.


Lemma begin_times_of_column (klines : list (list value)) (ts : list Z) :
  mapM astype_int64 (raw_column 0 klines) = Ok (map PInt ts) ->
  begin_times klines = Ok ts.
Proof.
  intros H. unfold begin_times. rewrite H. simpl. apply mapM_sort_key_ints.
Qed.

(** ** The pandas variant, conversely *)


(** The rows of a table of [get_candle_with_pandas]. *)
Lemma pandas_rows (argsort : list Z -> list nat) (convert : value -> result Z)
    (klines : list (list value)) (interval : value) (df : DataFrame) :
  argsort_spec argsort ->
  get_candle_with_pandas argsort convert klines interval = Ok df ->
  sorted_rows argsort convert klines interval df.
Proof.
  intros Hspec H. apply pandas_table in H.
  destruct H as (d & ts & o & hi & l & c & v & qv & tn & tb & tq & e & Hd & H0 & Hts & H1 &
                 H2 & H3 & H4 & H5 & H7 & H8 & H9 & H10 & He & ->).
  rewrite (take_timestamps _ _ (argsort_in_range argsort ts Hspec)) in He.
  apply mapM_add_timedelta in He. destruct He as [-> _].
  exists d, ts, o, hi, l, c, v, qv, tn, tb, tq, unit_ns.
  repeat split; try assumption.
  - exact (converted_length _ _ _ _ H8).
  - intros _. exact H8.
Qed.

(** ** The polars variant *)


Lemma mapM_pl_cast_datetime_ms (ts : list Z) :
  mapM pl_cast_datetime_ms (map PInt ts) = Ok (map PTimestamp ts).
Proof.
  induction ts as [| t ts IH]; simpl; [reflexivity |]. rewrite IH. reflexivity.
Qed.

Lemma pl_cast_int64_not_null (v : value) :
  is_null v = false -> pl_cast (Some Int64) v = astype_int64 v.
Proof. destruct v; simpl; intros H; try discriminate H; reflexivity. Qed.

Lemma pl_cast_float_not_null (v : value) :
  is_null v = false -> pl_cast (Some Float64) v = astype_float v.
Proof. destruct v; simpl; intros H; try discriminate H; reflexivity. Qed.

Lemma nan_if_null_float (w : value) : kind_of w = KFloat -> nan_if_null w = w.
Proof. destruct w; intros H; try discriminate H; reflexivity. Qed.

Lemma astype_int64_column_not_null (j : nat) (klines : list (list value)) (b : list value) :
  mapM astype_int64 (raw_column j klines) = Ok b ->
  forallb (fun r => negb (is_null (nth j r PNone))) klines = true.
Proof.
  intros H. apply mapM_Ok_Forall2 in H. unfold raw_column in H.
  apply forallb_forall. intros r Hr. apply negb_true_iff.
  revert b H. induction klines as [| r' klines IH]; intros b H; [destruct Hr |].
  simpl in H. inversion H; subst. destruct Hr as [-> | Hr].
  - eapply astype_int64_not_null. eassumption.
  - eapply IH; eassumption.
Qed.

Lemma begin_times_not_null (klines : list (list value)) (ts : list Z) :
  begin_times klines = Ok ts -> forallb has_begin_time klines = true.
Proof.
  unfold begin_times. intros H. apply bind_Ok in H. destruct H as [c [Hc _]].
  exact (astype_int64_column_not_null 0 klines c Hc).
Qed.

(** A float column of polars, handed over, is the column of pandas'
    [astype]. *)
Lemma pl_cast_float_cell (v w : value) :
  pl_cast (Some Float64) v = Ok w -> astype_float v = Ok (nan_if_null w).
Proof.
  destruct (is_null v) eqn:Hn.
  - destruct v; try discriminate Hn. simpl. intros H. injection H as <-. reflexivity.
  - rewrite (pl_cast_float_not_null v Hn). intros H. rewrite H. f_equal.
    symmetry. apply nan_if_null_float. exact (astype_float_kind _ _ H).
Qed.

Lemma polar_float_column (col o : list value) :
  mapM (pl_cast (Some Float64)) col = Ok o ->
  mapM astype_float col = Ok (map nan_if_null o).
Proof.
  intros H. apply mapM_Ok_Forall2 in H. apply mapM_Ok_Forall2.
  induction H; simpl; constructor; [apply pl_cast_float_cell |]; assumption.
Qed.

(** An integer column of polars without a null is the column of pandas'
    [astype]. *)
Lemma polar_int_column (col b : list value) :
  Forall (fun v => is_null v = false) col ->
  mapM (pl_cast (Some Int64)) col = Ok b -> mapM astype_int64 col = Ok b.
Proof.
  intros Hnn H. rewrite <- H. symmetry. apply mapM_ext_in. intros x Hx.
  apply pl_cast_int64_not_null. rewrite Forall_forall in Hnn. exact (Hnn x Hx).
Qed.

Lemma column_not_null (test : list value -> bool) (j : nat) (klines : list (list value)) :
  (forall r, test r = negb (is_null (nth j r PNone))) ->
  forallb test klines = true ->
  Forall (fun v => is_null v = false) (raw_column j klines).
Proof.
  intros Ht H. apply column_cells. apply Forall_forall. intros r Hr.
  rewrite forallb_forall in H. specialize (H r Hr). rewrite Ht in H.
  apply negb_true_iff in H. exact H.
Qed.

Lemma float_column_to_pandas (p : list nat) (o : list value) :
  Forall (fun i => (i < List.length o)%nat) p ->
  to_pandas_cells (Some Float64, take p o) = take p (map nan_if_null o).
Proof.
  intros Hp. unfold to_pandas_cells, take. simpl. symmetry.
  apply take_map_in_range. exact Hp.
Qed.


Lemma timestamps_to_pandas (p : list nat) (ts : list Z) :
  Forall (fun i => (i < List.length ts)%nat) p ->
  to_pandas_cells (Some Datetime_ms, take p (map PTimestamp ts))
  = take p (map PTimestamp ts).
Proof.
  intros Hp. unfold to_pandas_cells. simpl. apply map_fixed.
  apply take_Forall; [rewrite length_map; exact Hp |].
  apply Forall_forall. intros v Hv. apply in_map_iff in Hv.
  destruct Hv as [t [<- _]]. reflexivity.
Qed.

Lemma ints_to_pandas (p : list nat) (tn : list value) :
  Forall (fun i => (i < List.length tn)%nat) p ->
  Forall (fun w => kind_of w = KInt) tn ->
  to_pandas_cells (Some Int64, take p tn) = take p tn.
Proof.
  intros Hp Htn. unfold to_pandas_cells. simpl.
  destruct (existsb is_null (take p tn)) eqn:He; [| reflexivity].
  apply existsb_exists in He. destruct He as [x [Hx Hn]].
  assert (Hk := take_Forall _ p tn Hp Htn). rewrite Forall_forall in Hk.
  specialize (Hk x Hx). destruct x; discriminate.
Qed.

Lemma int_column_to_pandas (p : list nat) (tn : list value) :
  Forall (fun i => (i < List.length tn)%nat) p ->
  exists tn', List.length tn' = List.length tn /\
              to_pandas_cells (Some Int64, take p tn) = take p tn'.
Proof.
  intros Hp. unfold to_pandas_cells. simpl.
  destruct (existsb is_null (take p tn)).
  - exists (map float_if_int tn). split; [apply length_map |].
    unfold take. symmetry. apply take_map_in_range. exact Hp.
  - exists tn. split; reflexivity.
Qed.

Lemma to_pandas_cells_length (d : option dtype) (x : list value) :
  List.length (to_pandas_cells (d, x)) = List.length x.
Proof.
  unfold to_pandas_cells. simpl.
  destruct d as [[| |] |]; [destruct (existsb is_null x) | | |];
    rewrite ?length_map; reflexivity.
Qed.

Lemma positions_length (c : list value) :
  (List.length (positions is_null c)
   + List.length (positions (fun v => negb (is_null v)) c))%nat
  = List.length c.
Proof.
  unfold positions.
  rewrite (filter_partition_length (fun i => is_null (nth i c PNone))).
  apply length_seq.
Qed.

(** The sort of polars reads every row once. *)
Lemma pl_indexer_length (argsort : list Z -> list nat) (c : list value) (p : list nat) :
  argsort_spec argsort -> pl_indexer argsort c = Ok p -> List.length p = List.length c.
Proof.
  intros Hspec H. unfold pl_indexer in H.
  apply bind_Ok in H. destruct H as [keys [Hk H]]. injection H as <-.
  rewrite length_app, length_map, (argsort_length argsort keys Hspec),
    (mapM_same_length _ _ _ Hk).
  apply positions_length.
Qed.

(** Without a null among the keys, the sort of polars is the sort. *)
Lemma pl_indexer_timestamps (argsort : list Z -> list nat) (ts : list Z) :
  argsort_spec argsort ->
  pl_indexer argsort (map PTimestamp ts) = Ok (argsort ts).
Proof.
  intros Hspec. unfold pl_indexer, positions.
  assert (Hcell : forall i, In i (seq 0 (List.length (map PTimestamp ts))) ->
                            nth i (map PTimestamp ts) PNone = PTimestamp (nth i ts 0)).
  { intros i Hi. apply in_seq in Hi. rewrite length_map in Hi.
    rewrite (nth_indep _ PNone (PTimestamp 0)) by (rewrite length_map; lia).
    apply (map_nth PTimestamp). }
  rewrite (filter_all (fun i => negb (is_null (nth i (map PTimestamp ts) PNone))))
    by (intros i Hi; rewrite (Hcell i Hi); reflexivity).
  rewrite (filter_none (fun i => is_null (nth i (map PTimestamp ts) PNone)))
    by (intros i Hi; rewrite (Hcell i Hi); reflexivity).
  rewrite (mapM_ext_in _ (fun i => Ok (nth i ts 0)))
    by (intros i Hi; rewrite (Hcell i Hi); reflexivity).
  rewrite length_map, mapM_pure, map_nth_seq_all. simpl. f_equal.
  apply map_fixed. assert (Hr := argsort_in_range argsort ts Hspec).
  rewrite Forall_forall in *. intros i Hi.
  rewrite seq_nth by exact (Hr i Hi). reflexivity.
Qed.


(** A table of [get_candle_with_polar] is the table spelled out. *)
Lemma polar_table (argsort : list Z -> list nat) (convert : value -> result Z)
    (klines : list (list value)) (interval : value) (df : DataFrame) :
  get_candle_with_polar argsort convert klines interval = Ok df ->
  polar_candle_table argsort convert klines interval df.
Proof.
  intros H. unfold get_candle_with_polar, pl_LazyFrame in H.
  match type of H with
  | bind (if ?b then _ else _) _ = _ => destruct b; [| discriminate H]
  end.
  repeat (unfold pl_with_column, pl_col, pl_sort, pl_drop, to_pandas,
            add_candle_end_time, set_index, getcol, setcol in *;
          simpl in *; frame_step).
  match goal with
  | Hd : convert interval = Ok ?d, Hd' : convert interval = Ok ?d' |- _ =>
      rewrite Hd in Hd'; injection Hd' as <-
  end.
  unfold polar_candle_table, raw_column.
  do 14 eexists. repeat split; eassumption.
Qed.


(** The rows of a table of [get_candle_with_polar] whose candles all have a
    begin time. *)
Lemma polar_rows (argsort : list Z -> list nat) (convert : value -> result Z)
    (klines : list (list value)) (interval : value) (df : DataFrame) :
  argsort_spec argsort ->
  forallb has_begin_time klines = true ->
  get_candle_with_polar argsort convert klines interval = Ok df ->
  sorted_rows argsort convert klines interval df.
Proof.
  intros Hspec Hnn H. apply polar_table in H.
  destruct H as (d & b0 & b & o & hi & l & c & v & qv & tn & tb & tq & p & e & Hd & H0 & Hb &
                 H1 & H2 & H3 & H4 & H5 & H7 & H8 & H9 & H10 & Hp & He & ->).
  apply (polar_int_column _ _ (column_not_null has_begin_time 0 klines
                                 (fun r => eq_refl) Hnn)) in H0.
  destruct (ints_of_kind b0 (mapM_results _ _ _ _ astype_int64_kind H0)) as [ts ->].
  rewrite mapM_pl_cast_datetime_ms in Hb. injection Hb as <-.
  rewrite (pl_indexer_timestamps argsort ts Hspec) in Hp. injection Hp as <-.
  assert (Hn : List.length ts = List.length klines).
  { rewrite <- (converted_length _ _ _ _ H0). symmetry. apply length_map. }
  assert (Hr : forall col : list value,
             List.length col = List.length klines ->
             Forall (fun i => (i < List.length col)%nat) (argsort ts)).
  { intros col Hcol. rewrite Hcol, <- Hn. apply argsort_in_range. exact Hspec. }
  rewrite (timestamps_to_pandas _ _ (argsort_in_range argsort ts Hspec)) in *.
  rewrite (take_timestamps _ _ (argsort_in_range argsort ts Hspec)) in He.
  apply mapM_add_timedelta_ms in He. subst e.
  assert (Htn : exists tn',
             List.length tn' = List.length klines /\
             (forallb has_trade_num klines = true ->
              mapM astype_int64 (raw_column 8 klines) = Ok tn') /\
             to_pandas_cells (Some Int64, take (argsort ts) tn) = take (argsort ts) tn').
  { destruct (forallb has_trade_num klines) eqn:Hall.
    - pose proof (polar_int_column _ _ (column_not_null has_trade_num 8 klines
                                          (fun r => eq_refl) Hall) H8) as H8'.
      exists tn. split; [exact (converted_length _ _ _ _ H8) |].
      split; [intros _; exact H8' |].
      apply ints_to_pandas; [exact (Hr tn (converted_length _ _ _ _ H8)) |].
      exact (mapM_results _ _ _ _ astype_int64_kind H8').
    - destruct (int_column_to_pandas (argsort ts) tn (Hr tn (converted_length _ _ _ _ H8)))
        as [tn' [Hlen Htn]].
      exists tn'. split; [rewrite Hlen; exact (converted_length _ _ _ _ H8) |].
      split; [discriminate | exact Htn]. }
  destruct Htn as [tn' [Hlen [Hints Htn]]].
  rewrite Htn.
  rewrite (float_column_to_pandas _ o (Hr o (converted_length _ _ _ _ H1))),
    (float_column_to_pandas _ hi (Hr hi (converted_length _ _ _ _ H2))),
    (float_column_to_pandas _ l (Hr l (converted_length _ _ _ _ H3))),
    (float_column_to_pandas _ c (Hr c (converted_length _ _ _ _ H4))),
    (float_column_to_pandas _ v (Hr v (converted_length _ _ _ _ H5))),
    (float_column_to_pandas _ qv (Hr qv (converted_length _ _ _ _ H7))),
    (float_column_to_pandas _ tb (Hr tb (converted_length _ _ _ _ H9))),
    (float_column_to_pandas _ tq (Hr tq (converted_length _ _ _ _ H10))).
  exists d, ts, (map nan_if_null o), (map nan_if_null hi), (map nan_if_null l),
    (map nan_if_null c), (map nan_if_null v), (map nan_if_null qv), tn',
    (map nan_if_null tb), (map nan_if_null tq), unit_ms.
  repeat split; try assumption; apply polar_float_column; assumption.
Qed.

(** The shape of a table of [get_candle_with_polar], with or without
    nulls. *)
Lemma polar_candle_table_shape (argsort : list Z -> list nat) (convert : value -> result Z)
    (klines : list (list value)) (interval : value) (df : DataFrame) :
  argsort_spec argsort ->
  polar_candle_table argsort convert klines interval df ->
  index_name df = Some "candle_end_time" /\
  frame_shape candle_columns (List.length klines) df.
Proof.
  intros Hspec H.
  destruct H as (d & b0 & b & o & hi & l & c & v & qv & tn & tb & tq & p & e & Hd & H0 & Hb &
                 H1 & H2 & H3 & H4 & H5 & H7 & H8 & H9 & H10 & Hp & He & ->).
  assert (Hn : List.length p = List.length klines).
  { rewrite (pl_indexer_length _ _ _ Hspec Hp), (mapM_same_length _ _ _ Hb).
    exact (converted_length _ _ _ _ H0). }
  split; [reflexivity |]. unfold frame_shape. simpl.
  split; [reflexivity |]. split.
  - rewrite (mapM_same_length _ _ _ He), to_pandas_cells_length, take_length. exact Hn.
  - repeat constructor; simpl; rewrite to_pandas_cells_length, take_length; exact Hn.
Qed.

(** ** What the sorting variants share *)

Lemma sorted_rows_shape (argsort : list Z -> list nat) (convert : value -> result Z)
    (klines : list (list value)) (interval : value) (df : DataFrame) :
  argsort_spec argsort ->
  sorted_rows argsort convert klines interval df ->
  index_name df = Some "candle_end_time" /\
  frame_shape candle_columns (List.length klines) df.
Proof.
  intros Hspec H.
  destruct H as (d & ts & o & hi & l & c & v & qv & tn & tb & tq & u & Hd & H0 & H1 & H2 &
                 H3 & H4 & H5 & H7 & Hlen & H8 & H9 & H10 & ->).
  assert (Hn : List.length (argsort ts) = List.length klines).
  { rewrite (argsort_length argsort ts Hspec).
    rewrite <- (converted_length _ _ _ _ H0). symmetry. apply length_map. }
  split; [reflexivity |]. unfold frame_shape. simpl.
  split; [reflexivity |]. split.
  - rewrite !length_map. exact Hn.
  - repeat constructor; simpl; rewrite take_length; exact Hn.
Qed.


Lemma sorted_rows_kinds (argsort : list Z -> list nat) (convert : value -> result Z)
    (klines : list (list value)) (interval : value) (df : DataFrame) :
  argsort_spec argsort ->
  forallb has_trade_num klines = true ->
  sorted_rows argsort convert klines interval df ->
  column_kinds df (candle_kinds KInt) /\
  Forall (fun v => kind_of v = KTimestamp) (index df).
Proof.
  intros Hspec Hall H.
  destruct H as (d & ts & o & hi & l & c & v & qv & tn & tb & tq & u & Hd & H0 & H1 & H2 &
                 H3 & H4 & H5 & H7 & Hlen & H8 & H9 & H10 & ->).
  specialize (H8 Hall).
  assert (Hn : List.length ts = List.length klines).
  { rewrite <- (converted_length _ _ _ _ H0). symmetry. apply length_map. }
  assert (Hr : forall col : list value,
             List.length col = List.length klines ->
             Forall (fun i => (i < List.length col)%nat) (argsort ts)).
  { intros col Hcol. rewrite Hcol, <- Hn. apply argsort_in_range. exact Hspec. }
  split.
  - unfold column_kinds, candle_kinds. simpl.
    repeat constructor; simpl; apply take_Forall;
      first [apply Hr; first [rewrite length_map; exact Hn
                             | eapply converted_length; eassumption]
            | apply timestamps_kind
            | eapply (mapM_results astype_float); [apply astype_float_kind | eassumption]
            | eapply (mapM_results astype_int64); [apply astype_int64_kind | eassumption]].
  - simpl. apply Forall_forall. intros x Hx. apply in_map_iff in Hx.
    destruct Hx as [t [<- _]]. reflexivity.
Qed.

(** ** Venue candles *)









(** ** The two sorting variants, compared *)




(** Why the begin times are asked to be different: with equal begin times
    the order of the tied candles is the sort's, and two sorts that both sort
    give two tables. *)
Example tied_candles_follow_the_sort :
  exists df_pandas df_polar : DataFrame,
    get_candle_with_pandas stable_argsort duration_of tied_klines (PStr "1h")
    = Ok df_pandas /\
    get_candle_with_polar reversing_argsort duration_of tied_klines (PStr "1h")
    = Ok df_polar /\
    getcol "close" df_pandas = Ok [PFloat (FNum false 10 (-1)); PFloat (FNum false 15 (-1))] /\
    getcol "close" df_polar = Ok [PFloat (FNum false 15 (-1)); PFloat (FNum false 10 (-1))].
Proof. do 2 eexists. repeat split; vm_compute; reflexivity. Qed.

(** Outside the venue's candles the two variants part further.  A candle
    without a trade count stops [get_candle_with_pandas], whose cast to
    [int64] refuses [None]; polars reads a null, and the table of
    [get_candle_with_polar] has the trade counts as floats, NaN for the
    missing one. *)
Example polar_reads_missing_trade_num :
  get_candle_with_pandas stable_argsort duration_of klines_without_trade_num (PStr "1h")
  = Err TypeError /\
  exists df,
    get_candle_with_polar stable_argsort duration_of klines_without_trade_num (PStr "1h")
    = Ok df /\
    getcol "trade_num" df = Ok [PFloat (FNum false 7 0); PFloat FNaN].
Proof. split; [vm_compute; reflexivity |]. eexists. split; vm_compute; reflexivity. Qed.

(** A begin time past pandas' nanoseconds stops [get_candle_with_pandas] at
    [pd.to_datetime]; [get_candle_with_polar] keeps its milliseconds and
    returns the candle. *)
Example polar_keeps_far_timestamp :
  get_candle_with_pandas stable_argsort duration_of far_klines (PStr "1h")
  = Err OutOfBoundsDatetime /\
  exists df,
    get_candle_with_polar stable_argsort duration_of far_klines (PStr "1h") = Ok df /\
    getcol "candle_begin_time" df = Ok [PTimestamp 10000000000000] /\
    index df = [PTimestamp 10000003600000].
Proof. split; [vm_compute; reflexivity |]. eexists. repeat split; vm_compute; reflexivity. Qed.

(** A candle without a begin time stops [get_candle_with_pandas] as well;
    [get_candle_with_polar] sorts it first and returns it with no begin and
    no end time. *)
Example polar_sorts_missing_begin_time_first :
  begin_times klines_without_begin_time = Err TypeError /\
  get_candle_with_pandas stable_argsort duration_of klines_without_begin_time (PStr "1h")
  = Err TypeError /\
  exists df,
    get_candle_with_polar stable_argsort duration_of klines_without_begin_time (PStr "1h")
    = Ok df /\
    getcol "candle_begin_time" df = Ok [PNaT; PTimestamp 0] /\
    index df = [PNaT; PTimestamp 3600000].
Proof.
  split; [vm_compute; reflexivity |]. split; [vm_compute; reflexivity |].
  eexists. repeat split; vm_compute; reflexivity.
Qed.

(** * Further properties of the module *)

(** ** Filter lookup *)

Lemma _get_from_filters_loop_skip (pre rest : list value) (filter_type field_name : string) :
  forallb (is_other_filter filter_type) pre = true ->
  _get_from_filters_loop (pre ++ rest) filter_type field_name
  = _get_from_filters_loop rest filter_type field_name.
Proof.
  induction pre as [| g pre IH]; simpl; intros H; [reflexivity |].
  apply andb_true_iff in H. destruct H as [Hg Hpre].
  unfold is_other_filter in Hg.
  destruct (getitem g "filterType") as [t | e]; [| discriminate Hg]. simpl.
  apply negb_true_iff in Hg. rewrite Hg. exact (IH Hpre).
Qed.

(** X1: [_get_from_filters] answers with the first entry of the type asked
    for: entries of other types before it are passed over, and whatever
    follows it, another entry of the same type included, is not looked at.
    The answer is the named field of that entry, or the KeyError of its
    absence. *)
Theorem get_from_filters_first_match (pre post : list value) (f : value)
    (filter_type field_name : string) :
  forallb (is_other_filter filter_type) pre = true ->
  is_filter_of_type filter_type f = true ->
  _get_from_filters (PList (pre ++ f :: post)) filter_type field_name
  = getitem f field_name.
Proof.
  intros Hpre Hf. unfold _get_from_filters. simpl.
  rewrite (_get_from_filters_loop_skip pre (f :: post) _ _ Hpre). simpl.
  unfold is_filter_of_type in Hf.
  destruct (getitem f "filterType") as [t | e]; [| discriminate Hf]. simpl.
  rewrite Hf. reflexivity.
Qed.

Lemma get_from_filters_first_match_witness :
  _get_from_filters two_price_filters "PRICE_FILTER" "tickSize"
  = getitem (filter_entry "PRICE_FILTER" "tickSize" "0.10") "tickSize".
Proof.
  apply (get_from_filters_first_match
           [filter_entry "LOT_SIZE" "stepSize" "0.001"]
           [filter_entry "PRICE_FILTER" "tickSize" "0.50"]
           (filter_entry "PRICE_FILTER" "tickSize" "0.10")
           "PRICE_FILTER" "tickSize").
  - reflexivity.
  - reflexivity.
Defined.

(** X2: when every entry of the list is a filter of another type, the empty
    list included, [_get_from_filters] raises nothing and answers [None]. *)
Theorem get_from_filters_not_found (fs : list value) (filter_type field_name : string) :
  forallb (is_other_filter filter_type) fs = true ->
  _get_from_filters (PList fs) filter_type field_name = Ok PNone.
Proof.
  intros H. unfold _get_from_filters. simpl.
  rewrite <- (app_nil_r fs).
  rewrite (_get_from_filters_loop_skip fs [] _ _ H). reflexivity.
Qed.

Lemma get_from_filters_not_found_witness :
  _get_from_filters two_price_filters "MIN_NOTIONAL" "notional" = Ok PNone.
Proof.
  apply (get_from_filters_not_found
           [filter_entry "LOT_SIZE" "stepSize" "0.001";
            filter_entry "PRICE_FILTER" "tickSize" "0.10";
            filter_entry "PRICE_FILTER" "tickSize" "0.50"]
           "MIN_NOTIONAL" "notional").
  reflexivity.
Defined.

(** ** What a trading rule copies *)

(** X3: a parsed rule copies the symbol and the base and quote assets of
    the record as they are, and its status from [contractStatus] for
    coin_futures and from [status] for the two other variants.  The futures
    variants copy the contract type and the margin asset as well; a spot
    rule has neither key. *)
Theorem rule_copies_record (type_ : string) (parse : value -> result value)
    (info rule : value) :
  In (type_, parse) TYPE_MAP ->
  parse info = Ok rule ->
  getitem rule "symbol" = getitem info "symbol" /\
  getitem rule "base_asset" = getitem info "baseAsset" /\
  getitem rule "quote_asset" = getitem info "quoteAsset" /\
  getitem rule "status" = getitem info (status_field type_) /\
  (if String.eqb type_ "spot"
   then has_key rule "contract_type" = false /\ has_key rule "margin_asset" = false
   else getitem rule "contract_type" = getitem info "contractType" /\
        getitem rule "margin_asset" = getitem info "marginAsset").
Proof.
  intros Hin Hp. type_map_cases Hin.
  - unfold _parse_usdt_futures_syminfo in Hp. bind_inv. subst rule. simpl.
    repeat split; symmetry; assumption.
  - unfold _parse_coin_futures_syminfo in Hp. bind_inv. subst rule. simpl.
    repeat split; symmetry; assumption.
  - unfold _parse_spot_syminfo in Hp. bind_inv. subst rule. simpl.
    repeat split; try reflexivity; symmetry; assumption.
Qed.

Lemma rule_copies_record_witness :
  getitem btc_rule "symbol" = getitem (usdt_info "BTCUSDT" "0.10") "symbol" /\
  getitem btc_rule "base_asset" = getitem (usdt_info "BTCUSDT" "0.10") "baseAsset" /\
  getitem btc_rule "quote_asset" = getitem (usdt_info "BTCUSDT" "0.10") "quoteAsset" /\
  getitem btc_rule "status"
  = getitem (usdt_info "BTCUSDT" "0.10") (status_field "usdt_futures") /\
  (if String.eqb "usdt_futures" "spot"
   then has_key btc_rule "contract_type" = false /\
        has_key btc_rule "margin_asset" = false
   else getitem btc_rule "contract_type"
        = getitem (usdt_info "BTCUSDT" "0.10") "contractType" /\
        getitem btc_rule "margin_asset"
        = getitem (usdt_info "BTCUSDT" "0.10") "marginAsset").
Proof.
  apply (rule_copies_record "usdt_futures" _parse_usdt_futures_syminfo
           (usdt_info "BTCUSDT" "0.10") btc_rule).
  - simpl. left. reflexivity.
  - vm_compute. reflexivity.
Defined.

(** X4: the minimum notional of a spot or usdt_futures rule is the decimal
    value of the venue's field: [minNotional] of the first NOTIONAL entry
    for spot, [notional] of the first MIN_NOTIONAL entry for
    usdt_futures. *)
Theorem min_notional_is_venue_value (type_ : string) (parse : value -> result value)
    (info rule : value) :
  In (type_, parse) TYPE_MAP ->
  type_ <> "coin_futures" ->
  parse info = Ok rule ->
  exists (t : value) (d : Decimal),
    notional_source type_ info = Ok t /\
    Decimal_new t = Ok d /\
    getitem rule "min_notional_value" = Ok (PDecimal d).
Proof.
  intros Hin Hne Hp. type_map_cases Hin.
  - unfold _parse_usdt_futures_syminfo in Hp. bind_inv. subst rule.
    unfold notional_source. simpl.
    repeat match goal with H : _ = Ok _ |- _ => rewrite H; simpl end.
    do 2 eexists. repeat split; eassumption.
  - exfalso. apply Hne. reflexivity.
  - unfold _parse_spot_syminfo in Hp. bind_inv. subst rule.
    unfold notional_source. simpl.
    repeat match goal with H : _ = Ok _ |- _ => rewrite H; simpl end.
    do 2 eexists. repeat split; eassumption.
Qed.

Lemma min_notional_is_venue_value_witness :
  exists (t : value) (d : Decimal),
    notional_source "usdt_futures" (usdt_info "BTCUSDT" "0.10") = Ok t /\
    Decimal_new t = Ok d /\
    getitem btc_rule "min_notional_value" = Ok (PDecimal d).
Proof.
  apply (min_notional_is_venue_value "usdt_futures" _parse_usdt_futures_syminfo
           (usdt_info "BTCUSDT" "0.10") btc_rule).
  - simpl. left. reflexivity.
  - discriminate.
  - vm_compute. reflexivity.
Defined.

(** ** The facade and its collaborators *)

(** X5: with a venue type of [TYPE_MAP] and a factory that answers,
    constructing a fetcher succeeds: it keeps the type, the API object of the
    factory and the parser that [TYPE_MAP] has for the type, and the factory
    call is the only call made. *)
Theorem init_binds_variant (type_ : string) (parse : value -> result value)
    (session : Session) (S : Type) (h : handler S) (s s' : S) (api : MarketApi) :
  In (type_, parse) TYPE_MAP ->
  h MarketApi (create_binance_market_api (PStr type_) session) s = (Ok api, s') ->
  run h (__init__ (PStr type_) session) s
  = (Ok {| trade_type := PStr type_; market_api := api; syminfo_parse_func := parse |},
     s', [Event (create_binance_market_api (PStr type_) session)]).
Proof.
  intros Hin Hh. unfold __init__. simpl. rewrite Hh.
  type_map_cases Hin; reflexivity.
Qed.

Lemma init_binds_variant_witness :
  run sample_venue (__init__ (PStr "spot") (mkSession 1)) 0%nat
  = (Ok {| trade_type := PStr "spot"; market_api := mkMarketApi 1;
           syminfo_parse_func := _parse_spot_syminfo |},
     0%nat, [Event (create_binance_market_api (PStr "spot") (mkSession 1))]).
Proof.
  apply (init_binds_variant "spot" _parse_spot_syminfo (mkSession 1) nat sample_venue
           0%nat 0%nat (mkMarketApi 1)).
  - simpl. right. right. left. reflexivity.
  - reflexivity.
Defined.

(** X6: when the venue fails a request, each fetching method ends with
    that very exception after its one call, with nothing caught and nothing
    asked again by the method itself: [get_exchange_info] and [get_candle]
    go through the retry collaborator, [get_funding_rate] calls the
    premium-index request directly. *)
Theorem request_failure_surfaces (convert : value -> result Z) (self : BinanceFetcher)
    (symbol interval : value) (kwargs : list (string * value))
    (S : Type) (h : handler S) (s s' : S) (e : exn) :
  (forall (X : Type) (c : call X), is_request c = true -> h X c s = (Err e, s')) ->
  eq_str (trade_type self) "spot" = false ->
  run h (get_exchange_info self) s
  = (Err e, s', [Event (async_retry_getter (aioreq_exchange_info (market_api self)))]) /\
  run h (get_candle convert self symbol interval kwargs) s
  = (Err e, s',
     [Event (async_retry_getter (aioreq_klines (market_api self) symbol interval kwargs))]) /\
  run h (get_funding_rate self) s
  = (Err e, s', [Event (aioreq_premium_index (market_api self))]).
Proof.
  intros Hh Hspot.
  unfold get_exchange_info, get_candle, get_funding_rate. rewrite Hspot. simpl.
  rewrite !Hh by reflexivity. repeat split; reflexivity.
Qed.

Lemma request_failure_surfaces_witness :
  run failing_venue (get_exchange_info usdt_fetcher) 0%nat
  = (Err (OtherError "timeout"), 1%nat,
     [Event (async_retry_getter (aioreq_exchange_info (market_api usdt_fetcher)))]) /\
  run failing_venue (get_candle duration_of usdt_fetcher (PStr "BTCUSDT") (PStr "1h") [])
      0%nat
  = (Err (OtherError "timeout"), 1%nat,
     [Event (async_retry_getter
               (aioreq_klines (market_api usdt_fetcher) (PStr "BTCUSDT") (PStr "1h") []))]) /\
  run failing_venue (get_funding_rate usdt_fetcher) 0%nat
  = (Err (OtherError "timeout"), 1%nat,
     [Event (aioreq_premium_index (market_api usdt_fetcher))]).
Proof.
  apply (request_failure_surfaces duration_of usdt_fetcher (PStr "BTCUSDT") (PStr "1h") []
           nat failing_venue 0%nat 1%nat (OtherError "timeout")).
  - intros X c _. reflexivity.
  - reflexivity.
Defined.

(** ** The symbol table, further *)

Lemma get_exchange_info_loop_fails (parse : value -> result value) (infos : list value)
    (bad : value) (e : exn) :
  In bad infos -> parse bad = Err e ->
  forall d, exists e', get_exchange_info_loop parse infos d = Err e'.
Proof.
  intros Hin Hbad. induction infos as [| info rest IH]; [destruct Hin |].
  intros d. simpl. destruct Hin as [-> | Hin].
  - rewrite Hbad. simpl. eauto.
  - destruct (parse info) as [rule | e1]; simpl; [| eauto].
    destruct (getitem info "symbol") as [k | e2]; simpl; [| eauto].
    destruct (dict_setitem d k rule) as [d' | e3]; simpl; [| eauto].
    exact (IH Hin d').
Qed.

(** X7: [get_exchange_info] gives all the rules or none: when one entry of
    the listing does not parse, the call raises, and the rules of the
    entries around it are not returned. *)
Theorem exchange_info_all_or_nothing (self : BinanceFetcher) (exg_info : value)
    (infos : list value) (bad : value) (e : exn)
    (S : Type) (h : handler S) (s s' : S) :
  h value (async_retry_getter (aioreq_exchange_info (market_api self))) s
  = (Ok exg_info, s') ->
  listing_of exg_info = Ok infos ->
  In bad infos ->
  syminfo_parse_func self bad = Err e ->
  exists e', run h (get_exchange_info self) s
             = (Err e', s',
                [Event (async_retry_getter (aioreq_exchange_info (market_api self)))]).
Proof.
  intros Hh Hl Hin Hbad. unfold get_exchange_info. simpl. rewrite Hh.
  unfold listing_of in Hl. unfold exchange_info_rules.
  destruct (getitem exg_info "symbols") as [symbols | e1]; simpl in *; [| discriminate Hl].
  rewrite Hl. simpl.
  destruct (get_exchange_info_loop_fails _ infos bad e Hin Hbad []) as [e' He'].
  rewrite He'. simpl. exists e'. reflexivity.
Qed.

Lemma exchange_info_all_or_nothing_witness :
  exists e', run (venue_of listing_with_bad_entry [] (PList [])) 
                 (get_exchange_info usdt_fetcher) 0%nat
             = (Err e', 1%nat,
                [Event (async_retry_getter (aioreq_exchange_info (market_api usdt_fetcher)))]).
Proof.
  apply (exchange_info_all_or_nothing usdt_fetcher listing_with_bad_entry
           [usdt_info "BTCUSDT" "0.10"; usdt_info_no_price_filter; usdt_info "ETHUSDT" "0.01"]
           usdt_info_no_price_filter TypeError).
  - reflexivity.
  - reflexivity.
  - simpl. right. left. reflexivity.
  - vm_compute. reflexivity.
Defined.

Lemma dict_update_fresh (d : pydict) (k v : value) :
  (forall kv, In kv d -> key_eqb (fst kv) k = false) ->
  dict_update d k v = (d ++ [(k, v)])%list.
Proof.
  induction d as [| [k' v'] d IH]; simpl; intros H; [reflexivity |].
  pose proof (H (k', v') (or_introl eq_refl)) as Hk. simpl in Hk. rewrite Hk. f_equal.
  apply IH. intros kv Hkv. apply H. right. exact Hkv.
Qed.

Lemma get_exchange_info_loop_distinct (parse : value -> result value)
    (infos : list value) (srs : list (string * value)) :
  Forall2 (fun info sr => getitem info "symbol" = Ok (PStr (fst sr)) /\
                          parse info = Ok (snd sr)) infos srs ->
  NoDup (map fst srs) ->
  forall d : pydict,
    (forall kv sr, In kv d -> In sr srs -> eq_str (fst kv) (fst sr) = false) ->
    get_exchange_info_loop parse infos d
    = Ok (d ++ map (fun sr => (PStr (fst sr), snd sr)) srs)%list.
Proof.
  induction 1 as [| info sr infos srs [Hs Hp] _ IH]; intros Hnd d Hd; simpl.
  - rewrite app_nil_r. reflexivity.
  - rewrite Hp, Hs. simpl. unfold dict_setitem. simpl.
    rewrite dict_update_fresh.
    + inversion Hnd as [| x l Hnotin Hnd']; subst.
      rewrite IH; [rewrite <- app_assoc; reflexivity | exact Hnd' |].
      intros kv sr' Hkv Hsr'. apply in_app_iff in Hkv. destruct Hkv as [Hkv | [<- | []]].
      * apply (Hd kv sr' Hkv). right. exact Hsr'.
      * simpl. apply String.eqb_neq. intros Heq. apply Hnotin.
        rewrite Heq. apply in_map. exact Hsr'.
    + intros kv Hkv. rewrite key_eqb_str_r. apply (Hd kv sr Hkv). left. reflexivity.
Qed.

(** X8: when the entries of the listing all parse and have symbol strings
    that are pairwise different, [get_exchange_info] returns their rules
    under their symbols, one per entry and in the order of the listing. *)
Theorem exchange_info_distinct_symbols (self : BinanceFetcher) (exg_info : value)
    (infos : list value) (srs : list (string * value))
    (S : Type) (h : handler S) (s s' : S) :
  h value (async_retry_getter (aioreq_exchange_info (market_api self))) s
  = (Ok exg_info, s') ->
  listing_of exg_info = Ok infos ->
  Forall2 (fun info sr => getitem info "symbol" = Ok (PStr (fst sr)) /\
                          syminfo_parse_func self info = Ok (snd sr)) infos srs ->
  NoDup (map fst srs) ->
  run h (get_exchange_info self) s
  = (Ok (map (fun sr => (PStr (fst sr), snd sr)) srs), s',
     [Event (async_retry_getter (aioreq_exchange_info (market_api self)))]).
Proof.
  intros Hh Hl Hall Hnd. unfold get_exchange_info. simpl. rewrite Hh.
  unfold listing_of in Hl. unfold exchange_info_rules.
  destruct (getitem exg_info "symbols") as [symbols | e1]; simpl in *; [| discriminate Hl].
  rewrite Hl. simpl.
  rewrite (get_exchange_info_loop_distinct _ infos srs Hall Hnd []).
  - reflexivity.
  - intros kv sr [].
Qed.

Lemma exchange_info_distinct_symbols_witness :
  run (venue_of listing_of_two [] (PList [])) (get_exchange_info usdt_fetcher) 0%nat
  = (Ok (map (fun sr => (PStr (fst sr), snd sr))
             [("BTCUSDT", usdt_rule "BTCUSDT" (DFinite false 50 (-2)));
              ("ETHUSDT", usdt_rule "ETHUSDT" (DFinite false 1 (-2)))]),
     1%nat,
     [Event (async_retry_getter (aioreq_exchange_info (market_api usdt_fetcher)))]).
Proof.
  apply (exchange_info_distinct_symbols usdt_fetcher listing_of_two
           [usdt_info "BTCUSDT" "0.50"; usdt_info "ETHUSDT" "0.01"]).
  - reflexivity.
  - reflexivity.
  - repeat constructor.
  - repeat constructor; simpl; intuition discriminate.
Defined.

(** ** The funding table, further *)

Lemma mapM_fails {A B : Type} (f : A -> result B) (l : list A) (x : A) (e : exn) :
  In x l -> f x = Err e -> exists e', mapM f l = Err e'.
Proof.
  intros Hin Hx. induction l as [| y l IH]; [destruct Hin |].
  simpl. destruct Hin as [-> | Hin].
  - rewrite Hx. simpl. eauto.
  - destruct (f y) as [b | e1]; simpl; [| eauto].
    destruct (IH Hin) as [e' He']. rewrite He'. simpl. eauto.
Qed.

Lemma to_numeric_coerce_scalar (v : value) :
  is_json_scalar v = true -> exists r, to_numeric_coerce v = Ok r.
Proof.
  destruct v as [| b | z | f | s | d | ms | l | items |]; simpl; intros H;
    try discriminate H; eauto.
  destruct (to_numeric_string s); eauto.
Qed.

Lemma funding_record_ok (d : value) :
  funding_entry_ok d = true ->
  exists (symbol : string) (rate : value),
    getitem d "symbol" = Ok (PStr symbol) /\
    funding_record d = Ok [("symbol", PStr symbol); ("fundingRate", rate)].
Proof.
  unfold funding_entry_ok, funding_record. intros H.
  destruct (getitem d "symbol") as [[| | | | symbol | | | | |] | e]; try discriminate H.
  destruct (getitem d "lastFundingRate") as [r | e]; [| discriminate H]. simpl.
  destruct (to_numeric_coerce_scalar r H) as [rate Hr]. rewrite Hr. simpl.
  exists symbol, rate. split; reflexivity.
Qed.

Lemma mapM_funding_record_ok (ds : list value) :
  forallb funding_entry_ok ds = true ->
  exists srs : list (string * value),
    Forall2 (fun d sr => getitem d "symbol" = Ok (PStr (fst sr))) ds srs /\
    mapM funding_record ds
    = Ok (map (fun sr => [("symbol", PStr (fst sr)); ("fundingRate", snd sr)]) srs).
Proof.
  induction ds as [| d ds IH]; simpl; intros H.
  - exists []. split; [constructor | reflexivity].
  - apply andb_true_iff in H. destruct H as [Hd Hds].
    destruct (funding_record_ok d Hd) as [symbol [rate [Hs Hr]]].
    destruct (IH Hds) as [srs [Hsym Hm]].
    exists ((symbol, rate) :: srs). rewrite Hr, Hm. simpl.
    split; [constructor; assumption | reflexivity].
Qed.

(** X9: whatever JSON scalars the venue sends as rates (a number, a text
    of any kind, null), the funding table is built: two columns, [symbol]
    and [fundingRate], under a range index, with one row per entry of the
    listing and the symbol texts of the entries in the order of the listing.
    Nothing is said here of the cells of [fundingRate], to which pandas gives
    one common type. *)
Theorem funding_table_of_scalars (ds : list value) :
  forallb funding_entry_ok ds = true ->
  exists (symbols : list string) (rates : list value),
    Forall2 (fun d s => getitem d "symbol" = Ok (PStr s)) ds symbols /\
    List.length rates = List.length ds /\
    funding_table (PList ds) = Ok (funding_frame (map PStr symbols) rates).
Proof.
  intros H. destruct (mapM_funding_record_ok ds H) as [srs [Hsym Hm]].
  exists (map fst srs), (map snd srs). split; [| split].
  - clear Hm H. induction Hsym; simpl; constructor; assumption.
  - rewrite length_map. symmetry. exact (Forall2_length Hsym).
  - unfold funding_table. simpl. rewrite Hm. simpl.
    unfold from_records, funding_frame. rewrite !length_map.
    destruct srs as [| sr srs]; simpl; [reflexivity |].
    rewrite !map_map. simpl. reflexivity.
Qed.

Lemma funding_table_of_scalars_witness :
  exists (symbols : list string) (rates : list value),
    Forall2 (fun d s => getitem d "symbol" = Ok (PStr s)) mixed_listing symbols /\
    List.length rates = List.length mixed_listing /\
    funding_table (PList mixed_listing) = Ok (funding_frame (map PStr symbols) rates).
Proof.
  apply (funding_table_of_scalars mixed_listing). reflexivity.
Defined.

(** X10: an entry without a symbol or without a rate fails the whole call:
    no table is returned, not even for the entries before it. *)
Theorem funding_table_needs_both_keys (ds : list value) (d : value) :
  In d ds ->
  has_key d "symbol" && has_key d "lastFundingRate" = false ->
  exists e, funding_table (PList ds) = Err e.
Proof.
  intros Hin Hk.
  assert (Hd : exists e, funding_record d = Err e).
  { unfold funding_record. destruct d; simpl in *; eauto.
    destruct (assoc "symbol" items); simpl in *; [| eauto].
    destruct (assoc "lastFundingRate" items); simpl in *; [discriminate Hk | eauto]. }
  destruct Hd as [e Hd].
  destruct (mapM_fails funding_record ds d e Hin Hd) as [e' He'].
  exists e'. unfold funding_table. simpl. rewrite He'. reflexivity.
Qed.

Lemma funding_table_needs_both_keys_witness :
  exists e, funding_table (PList listing_without_rate) = Err e.
Proof.
  apply (funding_table_needs_both_keys listing_without_rate
           (PDict [("symbol", PStr "XYZUSDT")])).
  - simpl. right. left. reflexivity.
  - reflexivity.
Defined.

(** ** The shape of a candle table *)

(** X11: a table of any of the three normalisation variants has the name
    [candle_end_time] on its index and exactly the ten kept columns, in the
    order of the payload fields: [close_time] and [ignore] are gone.  It has
    one row for every candle received, in every column. *)
Theorem candle_table_shape (argsort : list Z -> list nat) (convert : value -> result Z)
    (klines : list (list value)) (interval : value) (df : DataFrame) :
  argsort_spec argsort ->
  get_candle_with_original_pandas convert klines interval = Ok df \/
  get_candle_with_pandas argsort convert klines interval = Ok df \/
  get_candle_with_polar argsort convert klines interval = Ok df ->
  index_name df = Some "candle_end_time" /\
  frame_shape candle_columns (List.length klines) df.
Proof.
  intros Hspec [H | [H | H]].
  - apply original_pandas_table in H.
    destruct H as (d & ts & o & hi & l & c & v & qv & tn & tb & tq & Hd & H0 & Hts & H1 &
                   H2 & H3 & H4 & H5 & H7 & H8 & H9 & H10 & ->).
    assert (Hn : List.length ts = List.length klines).
    { rewrite <- (converted_length _ _ _ _ H0). symmetry. apply length_map. }
    split; [reflexivity |]. unfold frame_shape. simpl.
    split; [reflexivity |]. split; [rewrite length_map; exact Hn |].
    repeat constructor; simpl;
      first [rewrite length_map; exact Hn | eapply converted_length; eassumption].
  - apply sorted_rows_shape with argsort convert interval; [exact Hspec |].
    apply pandas_rows; assumption.
  - apply polar_candle_table_shape with argsort convert interval; [exact Hspec |].
    apply polar_table. exact H.
Qed.

Lemma candle_table_shape_witness :
  index_name reversed_table = Some "candle_end_time" /\
  frame_shape candle_columns (List.length reversed_klines) reversed_table.
Proof.
  apply (candle_table_shape stable_argsort duration_of reversed_klines (PStr "1h")
           reversed_table).
  - exact stable_argsort_spec.
  - left. vm_compute. reflexivity.
Defined.

(** ** The order of the rows *)

Lemma mapM_of_maps {A B C D : Type} (f : B -> result C) (g : A -> B) (k : D -> C)
    (l : list A) (l' : list D) :
  mapM f (map g l) = Ok (map k l') ->
  Forall2 (fun x y => f (g x) = Ok (k y)) l l'.
Proof.
  intros H. apply mapM_Ok_Forall2 in H.
  revert l' H. induction l as [| x l IH]; intros [| y l'] H; simpl in H;
    inversion H; subst; constructor; auto.
Qed.

(** X12: [get_candle_with_original_pandas], the normalisation of
    [get_candle], keeps the candles in the order received: row by row, the
    begin time of the table is the first field of the candle and its close
    price the fifth field, converted. *)
Theorem original_keeps_rows (convert : value -> result Z) (klines : list (list value))
    (interval : value) (df : DataFrame) :
  get_candle_with_original_pandas convert klines interval = Ok df ->
  exists (ts : list Z) (closes : list value),
    Forall2 (fun r t => astype_int64 (nth 0 r PNone) = Ok (PInt t)) klines ts /\
    Forall2 (fun r c => astype_float (nth 4 r PNone) = Ok c) klines closes /\
    getcol "candle_begin_time" df = Ok (map PTimestamp ts) /\
    getcol "close" df = Ok closes.
Proof.
  intros H. apply original_pandas_table in H.
  destruct H as (d & ts & o & hi & l & c & v & qv & tn & tb & tq & Hd & H0 & Hts & H1 &
                 H2 & H3 & H4 & H5 & H7 & H8 & H9 & H10 & ->).
  exists ts, c. unfold raw_column in *. repeat split.
  - apply (mapM_of_maps astype_int64 (fun r => nth 0 r PNone) PInt). exact H0.
  - rewrite <- (map_id c) in H4.
    apply (mapM_of_maps astype_float (fun r => nth 4 r PNone) (fun x => x)). exact H4.
Qed.

Lemma original_keeps_rows_witness :
  exists (ts : list Z) (closes : list value),
    Forall2 (fun r t => astype_int64 (nth 0 r PNone) = Ok (PInt t)) reversed_klines ts /\
    Forall2 (fun r c => astype_float (nth 4 r PNone) = Ok c) reversed_klines closes /\
    getcol "candle_begin_time" reversed_table = Ok (map PTimestamp ts) /\
    getcol "close" reversed_table = Ok closes.
Proof.
  apply (original_keeps_rows duration_of reversed_klines (PStr "1h") reversed_table).
  vm_compute. reflexivity.
Defined.



Lemma strictly_sorted_nodup (l : list Z) : StronglySorted Z.lt l -> NoDup l.
Proof.
  induction 1 as [| a l _ IH Ha]; constructor; [| exact IH].
  intros Hin. rewrite Forall_forall in Ha. specialize (Ha a Hin). lia.
Qed.

(** A sort leaves keys that already increase where they are. *)
Lemma argsort_of_sorted (argsort : list Z -> list nat) (keys : list Z) :
  argsort_spec argsort -> StronglySorted Z.lt keys ->
  argsort keys = seq 0 (List.length keys).
Proof.
  intros Hspec Hs. assert (Hnd := strictly_sorted_nodup keys Hs).
  destruct (Hspec keys) as [Hp Hsorted].
  assert (Hk := keys_in_sorted_order argsort keys Hspec).
  apply (map_eq_injective_on (fun i => nth i keys 0)).
  - intros i j Hi Hj Hf.
    apply (Permutation_in _ Hp) in Hi. apply in_seq in Hi. apply in_seq in Hj.
    apply (proj1 (NoDup_nth keys 0) Hnd); [lia | lia | exact Hf].
  - rewrite map_nth_seq_all. apply strictly_sorted_unique.
    + apply sorted_nodup_strict; [exact Hsorted |].
      apply (Permutation_NoDup (Permutation_sym Hk) Hnd).
    + exact Hs.
    + intros x. split; intros Hx.
      * apply (Permutation_in _ Hk). exact Hx.
      * apply (Permutation_in _ (Permutation_sym Hk)). exact Hx.
Qed.

Lemma take_all (n : nat) (l : list value) :
  List.length l = n -> take (seq 0 n) l = l.
Proof. intros <-. unfold take. apply map_nth_seq_all. Qed.

Lemma map_PInt_injective (l1 l2 : list Z) : map PInt l1 = map PInt l2 -> l1 = l2.
Proof.
  revert l2. induction l1 as [| x l1 IH]; intros [| y l2] H; simpl in H;
    try discriminate H; [reflexivity |].
  injection H as -> H. f_equal. exact (IH _ H).
Qed.

Lemma sorted_rows_of_sorted (argsort : list Z -> list nat)
    (convert : value -> result Z) (klines : list (list value)) (interval : value)
    (ts : list Z) (df df0 : DataFrame) :
  argsort_spec argsort ->
  begin_times klines = Ok ts ->
  StronglySorted Z.lt ts ->
  sorted_rows argsort convert klines interval df ->
  get_candle_with_original_pandas convert klines interval = Ok df0 ->
  index df = index df0 /\
  remove_cols ["trade_num"] (data df) = remove_cols ["trade_num"] (data df0).
Proof.
  intros Hspec Hb Hs H H0.
  destruct H as (d & ts' & o & hi & l & c & v & qv & tn & tb & tq & u & Hd & Hc0 & Hc1 &
                 Hc2 & Hc3 & Hc4 & Hc5 & Hc7 & Hlen & Hc8 & Hc9 & Hc10 & ->).
  rewrite (begin_times_of_column klines ts' Hc0) in Hb. injection Hb as ->.
  apply original_pandas_table in H0.
  destruct H0 as (d0 & ts0 & o0 & hi0 & l0 & c0 & v0 & qv0 & tn0 & tb0 & tq0 & Hd0 & Ho0 & _ &
                  Ho1 & Ho2 & Ho3 & Ho4 & Ho5 & Ho7 & _ & Ho9 & Ho10 & ->).
  rewrite Hd in Hd0. injection Hd0 as <-.
  rewrite Hc0 in Ho0. injection Ho0 as Ho0. apply map_PInt_injective in Ho0. subst ts0.
  rewrite Hc1 in Ho1. injection Ho1 as <-.
  rewrite Hc2 in Ho2. injection Ho2 as <-.
  rewrite Hc3 in Ho3. injection Ho3 as <-.
  rewrite Hc4 in Ho4. injection Ho4 as <-.
  rewrite Hc5 in Ho5. injection Ho5 as <-.
  rewrite Hc7 in Ho7. injection Ho7 as <-.
  rewrite Hc9 in Ho9. injection Ho9 as <-.
  rewrite Hc10 in Ho10. injection Ho10 as <-.
  assert (Hn : List.length ts = List.length klines).
  { rewrite <- (converted_length _ _ _ _ Hc0). symmetry. apply length_map. }
  rewrite (argsort_of_sorted argsort ts Hspec Hs) in *.
  simpl. split; [rewrite map_nth_seq_all; reflexivity |].
  rewrite !take_all;
    first [reflexivity
          | apply length_map
          | rewrite Hn; eapply converted_length; eassumption].
Qed.

(** X14: on a payload whose begin times already increase, sorting moves
    nothing: the sorting variants return the index and the columns of
    [get_candle]'s own normalisation, cell for cell, but for [trade_num],
    which they keep as integers. *)
Theorem sorted_payload_keeps_order (argsort : list Z -> list nat)
    (convert : value -> result Z) (klines : list (list value)) (interval : value)
    (ts : list Z) (df df0 : DataFrame) :
  argsort_spec argsort ->
  begin_times klines = Ok ts ->
  StronglySorted Z.lt ts ->
  get_candle_with_pandas argsort convert klines interval = Ok df \/
  get_candle_with_polar argsort convert klines interval = Ok df ->
  get_candle_with_original_pandas convert klines interval = Ok df0 ->
  index df = index df0 /\
  remove_cols ["trade_num"] (data df) = remove_cols ["trade_num"] (data df0).
Proof.
  intros Hspec Hb Hs [H | H] H0.
  - apply (sorted_rows_of_sorted argsort convert klines interval ts); try assumption.
    apply pandas_rows; assumption.
  - apply (sorted_rows_of_sorted argsort convert klines interval ts); try assumption.
    apply polar_rows; try assumption.
    exact (begin_times_not_null klines ts Hb).
Qed.

Lemma sorted_payload_keeps_order_witness :
  index sorted_table = index ordered_table /\
  remove_cols ["trade_num"] (data sorted_table)
  = remove_cols ["trade_num"] (data ordered_table).
Proof.
  apply (sorted_payload_keeps_order reversing_argsort duration_of ordered_klines (PStr "1h")
           [0; 3600000] sorted_table ordered_table).
  - exact reversing_argsort_spec.
  - vm_compute. reflexivity.
  - repeat constructor.
  - left. vm_compute. reflexivity.
  - vm_compute. reflexivity.
Defined.

(** ** Rejected inputs *)

(** X15: with an interval that the collaborator does not accept, none of
    the three variants returns a table, whatever the payload. *)
Theorem unknown_interval_fails (argsort : list Z -> list nat) (convert : value -> result Z)
    (klines : list (list value)) (interval : value) (e : exn) :
  argsort_spec argsort ->
  convert interval = Err e ->
  (exists e1, get_candle_with_original_pandas convert klines interval = Err e1) /\
  (exists e2, get_candle_with_pandas argsort convert klines interval = Err e2) /\
  (exists e3, get_candle_with_polar argsort convert klines interval = Err e3).
Proof.
  intros Hspec He. repeat split.
  - destruct (get_candle_with_original_pandas convert klines interval) as [df | e1] eqn:H;
      [| eauto].
    apply original_pandas_table in H. destruct H as (d & H). destruct H as (ts & H).
    decompose [ex and] H. congruence.
  - destruct (get_candle_with_pandas argsort convert klines interval) as [df | e1] eqn:H;
      [| eauto].
    apply pandas_table in H. destruct H as (d & H). destruct H as (ts & H).
    decompose [ex and] H. congruence.
  - destruct (get_candle_with_polar argsort convert klines interval) as [df | e1] eqn:H;
      [| eauto].
    apply polar_table in H. destruct H as (d & H). destruct H as (b0 & H).
    decompose [ex and] H. congruence.
Qed.

Lemma unknown_interval_fails_witness :
  (exists e1, get_candle_with_original_pandas duration_of reversed_klines (PStr "7x")
              = Err e1) /\
  (exists e2, get_candle_with_pandas stable_argsort duration_of reversed_klines (PStr "7x")
              = Err e2) /\
  (exists e3, get_candle_with_polar stable_argsort duration_of reversed_klines (PStr "7x")
              = Err e3).
Proof.
  apply (unknown_interval_fails stable_argsort duration_of reversed_klines (PStr "7x")
           ValueError).
  - exact stable_argsort_spec.
  - reflexivity.
Defined.

(** X16: a payload whose candles all have the same number of fields, other
    than twelve, is rejected by the three variants; the two pandas variants
    raise ValueError when they build their frame. *)
Theorem wrong_width_rejected (argsort : list Z -> list nat) (convert : value -> result Z)
    (r : list value) (rows : list (list value)) (interval : value) (n : nat) :
  Forall (fun x => List.length x = n) (r :: rows) ->
  n <> 12%nat ->
  get_candle_with_original_pandas convert (r :: rows) interval = Err ValueError /\
  get_candle_with_pandas argsort convert (r :: rows) interval = Err ValueError /\
  exists e, get_candle_with_polar argsort convert (r :: rows) interval = Err e.
Proof.
  intros Hw Hn.
  assert (Hpd : pd_DataFrame (r :: rows) kline_columns = Err ValueError).
  { unfold pd_DataFrame. rewrite (list_max_constant n r rows Hw).
    apply Nat.eqb_neq in Hn. change (List.length kline_columns) with 12%nat.
    rewrite Hn. reflexivity. }
  split; [| split].
  - unfold get_candle_with_original_pandas. rewrite Hpd. reflexivity.
  - unfold get_candle_with_pandas. rewrite Hpd. reflexivity.
  - unfold get_candle_with_polar, pl_LazyFrame.
    inversion Hw as [| x l Hr _]; subst.
    change (List.length polar_schema) with 12%nat.
    cbn [forallb]. apply Nat.eqb_neq in Hn. rewrite Hn. simpl. eauto.
Qed.

Lemma wrong_width_rejected_witness :
  get_candle_with_original_pandas duration_of [short_kline] (PStr "1h") = Err ValueError /\
  get_candle_with_pandas stable_argsort duration_of [short_kline] (PStr "1h")
  = Err ValueError /\
  exists e, get_candle_with_polar stable_argsort duration_of [short_kline] (PStr "1h")
            = Err e.
Proof.
  apply (wrong_width_rejected stable_argsort duration_of short_kline [] (PStr "1h") 11).
  - repeat constructor.
  - discriminate.
Defined.

(** ** The kinds of the cells *)

(** X17: in the table of [get_candle], the begin times and the index are
    timestamps and every other column holds floats, the trade count
    included. *)
Theorem original_cell_kinds (convert : value -> result Z) (klines : list (list value))
    (interval : value) (df : DataFrame) :
  get_candle_with_original_pandas convert klines interval = Ok df ->
  column_kinds df (candle_kinds KFloat) /\
  Forall (fun v => kind_of v = KTimestamp) (index df).
Proof.
  intros H. apply original_pandas_table in H.
  destruct H as (d & ts & o & hi & l & c & v & qv & tn & tb & tq & Hd & H0 & Hts & H1 &
                 H2 & H3 & H4 & H5 & H7 & H8 & H9 & H10 & ->).
  split.
  - unfold column_kinds, candle_kinds. simpl.
    repeat constructor; simpl;
      first [apply timestamps_kind
            | eapply (mapM_results astype_float); [apply astype_float_kind | eassumption]].
  - simpl. apply Forall_forall. intros x Hx. apply in_map_iff in Hx.
    destruct Hx as [t [<- _]]. reflexivity.
Qed.

Lemma original_cell_kinds_witness :
  column_kinds reversed_table (candle_kinds KFloat) /\
  Forall (fun v => kind_of v = KTimestamp) (index reversed_table).
Proof.
  apply (original_cell_kinds duration_of reversed_klines (PStr "1h") reversed_table).
  vm_compute. reflexivity.
Defined.

(** X18: in a table of the two sorting variants, the begin times and the
    index are timestamps, the trade count is an integer column and every
    other column holds floats: the variants differ from [get_candle]'s own
    normalisation in the kind of [trade_num].  For [get_candle_with_polar]
    this is said of payloads whose candles all have a begin time and a trade
    count: with a count missing, polars returns the trade counts as floats
    (see [polar_reads_missing_trade_num]). *)
Theorem sorting_variants_cell_kinds (argsort : list Z -> list nat)
    (convert : value -> result Z) (klines : list (list value)) (interval : value)
    (df : DataFrame) :
  argsort_spec argsort ->
  get_candle_with_pandas argsort convert klines interval = Ok df \/
  (forallb has_begin_time klines = true /\
   forallb has_trade_num klines = true /\
   get_candle_with_polar argsort convert klines interval = Ok df) ->
  column_kinds df (candle_kinds KInt) /\
  Forall (fun v => kind_of v = KTimestamp) (index df).
Proof.
  intros Hspec [H | [Hb [Hn H]]].
  - apply (sorted_rows_kinds argsort convert klines interval); [exact Hspec | |].
    + apply pandas_table in H.
      destruct H as (d & ts & o & hi & l & c & v & qv & tn & tb & tq & e & _ & _ & _ & _ &
                     _ & _ & _ & _ & _ & H8 & _).
      exact (astype_int64_column_not_null 8 klines tn H8).
    + apply pandas_rows; assumption.
  - apply (sorted_rows_kinds argsort convert klines interval); [exact Hspec | exact Hn |].
    apply polar_rows; assumption.
Qed.

Lemma sorting_variants_cell_kinds_witness :
  column_kinds (in_milliseconds sorted_table) (candle_kinds KInt) /\
  Forall (fun v => kind_of v = KTimestamp) (index (in_milliseconds sorted_table)).
Proof.
  apply (sorting_variants_cell_kinds stable_argsort duration_of reversed_klines (PStr "1h")
           (in_milliseconds sorted_table)).
  - exact stable_argsort_spec.
  - right. repeat split; vm_compute; reflexivity.
Defined.
